(** * Completion tracking in intrascribe's web client

    A shallow embedding of three pieces of [web/lib/supabase.ts] and
    [web/app/page.tsx]:

    - [Poller]: [APIClient.pollV2TaskStatus], the task-status polling loop;
    - [Api]: the methods of [APIClient] that build on the poll or on
      [request];
    - [Channels]: [subscriptionManager], the map from channel names to
      realtime subscriptions;
    - [Retranscribe]: the retranscription tracking state of [HomePage], its
      completion [useEffect] and the fallback timer of [handleRetranscribe];
    - [Page]: [handleSessionCreated], and [handleRetranscribe] together
      with the API client;
    - [Singleton]: [createSupabaseClient].

    Asynchronous code is modelled by explicit state passing: every function
    takes what the JavaScript reads from the outside world (the answers of
    the backend, the clock, the transport's behaviour) as an argument and
    returns its result together with the effects it performed. *)

From Stdlib Require Import ZArith String Ascii List DecimalString Lia.
From stdpp Require Import gmap strings list.

Local Open Scope Z_scope.

(** ** JavaScript helpers *)

(** [String.prototype.includes]: does [needle] occur somewhere in [hay]? *)
Fixpoint includes (needle hay : string) : bool :=
  if String.prefix needle hay then true
  else match hay with
       | EmptyString => false
       | String _ rest => includes needle rest
       end.

(** Template-literal rendering of an integer, [`${n}`]. *)
Definition show_int (n : Z) : string := NilZero.string_of_int (Z.to_int n).

(** The values [response.json()] can produce. *)
#[local] Unset Elimination Schemes.
Inductive JsValue : Type :=
| JsNull
| JsBool (b : bool)
| JsNumber (n : Z)
| JsString (s : string)
| JsArray (items : list JsValue)
| JsObject (fields : list (string * JsValue)).
#[local] Set Elimination Schemes.

(** JavaScript truthiness, as used by [&&], [||] and [if]. *)
Definition truthy (v : JsValue) : bool :=
  match v with
  | JsNull => false
  | JsBool b => b
  | JsNumber n => negb (n =? 0)
  | JsString s => negb (String.eqb s "")
  | JsArray _ | JsObject _ => true
  end.

(** [flag && o] for an optional property [o]: the property's value when
    the flag holds and the property is present and truthy. *)
Definition and_present (flag : bool) (o : option JsValue) : option JsValue :=
  if flag then
    match o with
    | Some v => if truthy v then Some v else None
    | None => None
    end
  else None.

(** [o[k]] for a plain object given by its fields ([None] is
    [undefined]); the keys read in this development are not names of
    [Object.prototype]. *)
Definition js_field (k : string) (fields : list (string * JsValue))
  : option JsValue :=
  snd <$> List.find (fun kv => String.eqb (fst kv) k) fields.

(** [a || b] on values that may be [undefined]. *)
Definition js_or (a b : option JsValue) : option JsValue :=
  match a with
  | Some v => if truthy v then a else b
  | None => b
  end.

(** [x || d] where [x] may be [undefined] and [d] is a value. *)
Definition js_or_default (a : option JsValue) (d : JsValue) : JsValue :=
  match a with
  | Some v => if truthy v then v else d
  | None => d
  end.

(** [typeof v === 'object' && v !== null] *)
Definition is_object (v : JsValue) : bool :=
  match v with
  | JsArray _ | JsObject _ => true
  | _ => false
  end.

(** [k in v] for an object or an array [v] and a key [k] that is not an
    array index or [length]. *)
Definition js_in (k : string) (v : JsValue) : bool :=
  match v with
  | JsObject fields => bool_decide (is_Some (js_field k fields))
  | _ => false
  end.

(** The rest of [s] after the prefix [pat], when [s] starts with it. *)
Fixpoint strip_prefix (pat s : string) : option string :=
  match pat with
  | EmptyString => Some s
  | String a pat' =>
      match s with
      | EmptyString => None
      | String b s' =>
          if Ascii.eqb a b then strip_prefix pat' s' else None
      end
  end.

(** [s.startsWith(pat)] *)
Definition startsWith (pat s : string) : bool :=
  bool_decide (is_Some (strip_prefix pat s)).

(** [s.replace(pat, rep)] for a string pattern and a replacement without
    [$]: only the first occurrence is replaced. *)
Fixpoint replace_first (pat rep s : string) : string :=
  match strip_prefix pat s with
  | Some rest => rep +:+ rest
  | None =>
      match s with
      | EmptyString => EmptyString
      | String c s' => String c (replace_first pat rep s')
      end
  end.

(** ** The task poller: [APIClient.pollV2TaskStatus] *)
Module Poller.

(** [TaskStatusResponse], with the properties the loop reads ([progress] is
    only logged). *)
Record TaskStatusResponse : Type := {
  status : string;
  result : option JsValue;
  error : option string
}.

(** A thrown [Error]; the loop only ever inspects its [message]. *)
Record Error : Type := { message : string }.

(** What one [fetch] of [/v2/tasks/<taskId>] does: the promise rejects, or
    it resolves to a response with an HTTP status whose body either fails
    to parse or parses to a [TaskStatusResponse]. *)
Inductive Body : Type :=
| BadJson (e : Error)
| Json (r : TaskStatusResponse).

Inductive FetchOutcome : Type :=
| FetchRejects (e : Error)
| Responds (http : Z) (body : Body).

(** [response.ok] *)
Definition ok (http : Z) : bool := (200 <=? http) && (http <=? 299).

(** Modelled from the spec: [getTaskStatus] of [./api-types], which is not
    part of the sources at hand. The specification recognises the status
    strings [pending], [processing], [completed], [failed] and [cancelled],
    and treats [pending] and [processing] alike as "still running". *)
Record TaskStatusFlags : Type := {
  isCompleted : bool;
  isFailed : bool;
  isCancelled : bool;
  isPending : bool
}.

Definition getTaskStatus (r : TaskStatusResponse) : TaskStatusFlags :=
  {| isCompleted := String.eqb (status r) "completed";
     isFailed := String.eqb (status r) "failed";
     isCancelled := String.eqb (status r) "cancelled";
     isPending := String.eqb (status r) "pending"
                  || String.eqb (status r) "processing" |}.

(** The observable effects of a poll, in order: the status requests (with
    the zero-based loop index), the [setTimeout] waits, and the warning
    about a status that no branch handled. *)
Inductive Event : Type :=
| Fetch (attempt : nat)
| Sleep (ms : Z)
| WarnUnknownStatus (s : string).

(** How a block of the loop body ends. *)
Inductive Completion : Type :=
| Return (v : JsValue)
| Throw (e : Error)
| Continue
| Normal.

(** [taskStatusResponse.error || '任务执行失败'] *)
Definition failure_message (r : TaskStatusResponse) : string :=
  match error r with
  | Some s => if String.eqb s "" then "任务执行失败" else s
  | None => "任务执行失败"
  end.

(** The [try] block of one iteration. *)
Definition try_block (attempt : nat) (o : FetchOutcome)
  : Completion * list Event :=
  match o with
  | FetchRejects e => (Throw e, [Fetch attempt])
  | Responds http body =>
      if negb (ok http) then
        (Throw {| message := "HTTP " +:+ show_int http |}, [Fetch attempt])
      else
        match body with
        | BadJson e => (Throw e, [Fetch attempt])
        | Json r =>
            let st := getTaskStatus r in
            match and_present (isCompleted st) (result r) with
            | Some v => (Return v, [Fetch attempt])
            | None =>
                if isFailed st then
                  (Throw {| message := failure_message r |}, [Fetch attempt])
                else if isCancelled st then
                  (Throw {| message := "任务被取消" |}, [Fetch attempt])
                else if isPending st then
                  (Continue, [Fetch attempt; Sleep 3000])
                else
                  (Normal, [Fetch attempt; WarnUnknownStatus (status r)])
            end
        end
  end.

(** [`认证失败，请重新登录: ${error.message}`] *)
Definition auth_error (e : Error) : Error :=
  {| message := "认证失败，请重新登录: " +:+ message e |}.

(** The [catch] block: it receives whatever the [try] block threw,
    including the errors the [try] block raised itself for a failed or a
    cancelled task. *)
Definition catch_block (attempt : nat) (maxAttempts : Z) (e : Error)
  : Completion * list Event :=
  if includes "403" (message e) then
    if 5 <=? Z.of_nat attempt then
      (Throw (auth_error e), [])
    else
      (Continue, [Sleep 1000])
  else if maxAttempts - 3 <=? Z.of_nat attempt then
    (Throw e, [])
  else
    (Normal, [Sleep 3000]).

(** One iteration of the [for] body: [try { ... } catch (error) { ... }]. *)
Definition iteration (attempt : nat) (maxAttempts : Z) (o : FetchOutcome)
  : Completion * list Event :=
  match try_block attempt o with
  | (Throw e, evs) =>
      let '(c, evs') := catch_block attempt maxAttempts e in (c, evs ++ evs')
  | r => r
  end.

(** The result of the [async] function. *)
Inductive Outcome : Type :=
| Resolved (v : JsValue)
| Rejected (e : Error).

(** [`V2任务轮询超时 (${maxAttempts} 次尝试)`] *)
Definition timeout_error (maxAttempts : Z) : Error :=
  {| message := "V2任务轮询超时 (" +:+ show_int maxAttempts +:+ " 次尝试)" |}.

(** [for (let attempt = 0; attempt < maxAttempts; attempt++) { ... }]
    followed by the final [throw]; [remaining] counts the iterations that
    the loop condition still admits. [env k] is the outcome of the fetch
    made at loop index [k]. *)
Fixpoint poll_from (env : nat -> FetchOutcome) (maxAttempts : Z)
    (remaining attempt : nat) : Outcome * list Event :=
  match remaining with
  | O => (Rejected (timeout_error maxAttempts), [])
  | S remaining' =>
      match iteration attempt maxAttempts (env attempt) with
      | (Return v, evs) => (Resolved v, evs)
      | (Throw e, evs) => (Rejected e, evs)
      | (_, evs) =>
          let '(out, evs') :=
            poll_from env maxAttempts remaining' (S attempt) in
          (out, evs ++ evs')
      end
  end.

(** [pollV2TaskStatus(taskId, maxAttempts = 120)]. The task id only selects
    the URL, so it is folded into [env]; [maxAttempts] is [None] when the
    caller omits it. *)
Definition pollV2TaskStatus (env : nat -> FetchOutcome)
    (maxAttempts : option Z) : Outcome * list Event :=
  let maxAttempts := default 120 maxAttempts in
  poll_from env maxAttempts (Z.to_nat maxAttempts) 0.

(** The loop indexes at which a status request was made. *)
Definition attempts (evs : list Event) : list nat :=
  omap (fun ev => match ev with Fetch k => Some k | _ => None end) evs.

(** The waits, in order. *)
Definition sleeps (evs : list Event) : list Z :=
  omap (fun ev => match ev with Sleep ms => Some ms | _ => None end) evs.

(** How many of the waits were the short wait of the auth-error path. *)
Definition fast_retries (evs : list Event) : nat :=
  count_occ Z.eq_dec (sleeps evs) 1000.

(** A scripted backend: the answers of [script] in order, then [after]. *)
Definition scripted (script : list FetchOutcome) (after : FetchOutcome)
  : nat -> FetchOutcome :=
  fun k => nth k script after.

Definition answers (s : string) (res : option JsValue) (err : option string)
  : FetchOutcome :=
  Responds 200 (Json {| status := s; result := res; error := err |}).

Definition pending : FetchOutcome := answers "pending" None None.
Definition processing : FetchOutcome := answers "processing" None None.
Definition failed (msg : string) : FetchOutcome :=
  answers "failed" None (Some msg).
Definition completed (v : JsValue) : FetchOutcome :=
  answers "completed" (Some v) None.
Definition forbidden : FetchOutcome :=
  Responds 403 (BadJson {| message := "" |}).

(** A status request that succeeded and reported a task still running
    ([pending] or [processing]). *)
Definition in_progress (o : FetchOutcome) : bool :=
  match o with
  | Responds http (Json r) => ok http && isPending (getTaskStatus r)
  | _ => false
  end.

(** A status request that succeeded without reporting a terminal status:
    the task has not failed, has not been cancelled, and has not completed
    with a result. *)
Definition non_terminal (o : FetchOutcome) : bool :=
  match o with
  | Responds http (Json r) =>
      ok http
      && negb (isFailed (getTaskStatus r))
      && negb (isCancelled (getTaskStatus r))
      && negb (bool_decide
                 (is_Some (and_present (isCompleted (getTaskStatus r))
                             (result r))))
  | _ => false
  end.

(** [!o] for an optional property: absent, or present with a falsy value. *)
Definition absent_or_falsy (o : option JsValue) : bool :=
  match o with
  | Some v => negb (truthy v)
  | None => true
  end.

End Poller.

(** ** The API client: other methods of [APIClient] *)
Module Api.
Import Poller.

(** What a method can throw. [ThrownError e] is an exception object with
    the message of [e]; its class is not recorded, since the client only
    ever tests [instanceof Error] and reads [message]: the [TypeError]
    with which [fetch] rejects when the network fails is a [ThrownError]
    too. [ThrownTypeError] is only the exception that the engine raises
    when a property of [null] is read; its message depends on the
    engine. *)
Inductive Thrown : Type :=
| ThrownError (e : Error)
| ThrownTypeError.

(** The settlement of an awaited call. *)
Inductive Try (A : Type) : Type :=
| Done (a : A)
| Raise (t : Thrown).
Arguments Done {A} a.
Arguments Raise {A} t.

#[export] Instance Try_ret : MRet Try := fun A a => Done a.

#[export] Instance Try_bind : MBind Try := fun A B k m =>
  match m with
  | Done a => k a
  | Raise t => Raise t
  end.

(** [try { m } catch (error) { handler(error) }] *)
Definition catch {A : Type} (m : Try A) (handler : Thrown -> Try A) : Try A :=
  match m with
  | Done a => Done a
  | Raise t => handler t
  end.

(** [v.k]: [undefined] when [v] has no such property, a [TypeError] when
    [v] is [null]. *)
Definition js_prop (k : string) (v : JsValue) : Try (option JsValue) :=
  match v with
  | JsNull => Raise ThrownTypeError
  | JsObject fields => Done (js_field k fields)
  | _ => Done None
  end.

(** [v?.k] for a [v] that may be [undefined] or [null]. *)
Definition js_opt_prop (k : string) (v : option JsValue) : option JsValue :=
  match v with
  | Some (JsObject fields) => js_field k fields
  | _ => None
  end.

(** What a [fetch] does: the promise rejects, or it resolves to a response
    with a status, a status text and a body that [json()] parses or
    fails on. *)
Inductive Parse : Type :=
| NoJson (e : Error)
| Parsed (v : JsValue).

Inductive Fetched : Type :=
| FetchFails (e : Error)
| Answer (http : Z) (statusText : string) (body : Parse).

(** [await response.json()] *)
Definition json (body : Parse) : Try JsValue :=
  match body with
  | NoJson e => Raise (ThrownError e)
  | Parsed v => Done v
  end.

(** [await response.json().catch(() => ({}))] *)
Definition json_or_empty (body : Parse) : JsValue :=
  match body with
  | NoJson _ => JsObject []
  | Parsed v => v
  end.

(** The calls a method makes, in order: the URLs it fetches and the
    polls it awaits, each with the events of the poll. *)
Inductive Call : Type :=
| Fetches (url : string)
| Polls (evs : list Event).

(** The client: its base URL and what [getAuthToken()] returns. *)
Record APIClient : Type := {
  baseURL : string;
  getAuthToken : option string
}.

(** [this.baseURL.replace('/v1', '')] *)
Definition v2BaseURL (c : APIClient) : string :=
  replace_first "/v1" "" (baseURL c).

(** [`${this.baseURL}${endpoint}`], forced to start with a slash. *)
Definition finalUrl (c : APIClient) (endpoint : string) : string :=
  let url := baseURL c +:+ endpoint in
  if startsWith "/" url then url else "/" +:+ url.

(** The headers of [request]: [{ 'Content-Type': 'application/json',
    ...(token && { Authorization: `Bearer ${token}` }),
    ...options.headers }], for [options.headers] a plain object. *)
Definition requestHeaders (c : APIClient) (headers : gmap string string)
  : gmap string string :=
  headers
  ∪ match getAuthToken c with
    | Some token =>
        if String.eqb token "" then ∅
        else {[ "Authorization"%string := ("Bearer " +:+ token)%string ]}
    | None => ∅
    end
  ∪ {[ "Content-Type"%string := "application/json"%string ]}.

Section Conversions.

(** The string conversion of JavaScript for values that are not strings
    (template literals, [new Error(v)]). *)
Variable ToString : JsValue -> string.

(** The message of a caught [TypeError], which depends on the engine. *)
Variable typeErrorMessage : string.

Definition to_text (v : JsValue) : string :=
  match v with
  | JsString s => s
  | _ => ToString v
  end.

(** [error.message] of something caught. *)
Definition thrown_message (t : Thrown) : string :=
  match t with
  | ThrownError e => message e
  | ThrownTypeError => typeErrorMessage
  end.

(** [request(endpoint, options)], given what the fetch of [finalUrl]
    does. *)
Definition request (c : APIClient) (endpoint : string) (f : Fetched)
  : Try JsValue :=
  match f with
  | FetchFails e => Raise (ThrownError e)
  | Answer http _ body =>
      if negb (ok http) then
        let error := json_or_empty body in
        inner ← js_prop "error" error;
        let msg :=
          js_or_default (js_opt_prop "message" inner)
            (JsString ("HTTP " +:+ show_int http)) in
        Raise (ThrownError {| message := to_text msg |})
      else json body
  end.

(** [isAsyncResponse(response)] *)
Definition isAsyncResponse (response : JsValue) : bool :=
  is_object response && js_in "task_id" response
  && js_in "poll_url" response.

(** [AISummaryResponse] as [generateSummary] builds it. *)
Record AISummaryResponse : Type := {
  summary : option JsValue;
  key_points : JsValue;
  metadata : JsValue
}.

(** [{ summary: r.summary, key_points: r.key_points || [],
      metadata: r.metadata || {} }] *)
Definition summaryOf (r : JsValue) : Try AISummaryResponse :=
  s ← js_prop "summary" r;
  k ← js_prop "key_points" r;
  m ← js_prop "metadata" r;
  Done {| summary := s;
          key_points := js_or_default k (JsArray []);
          metadata := js_or_default m (JsObject []) |}.

(** [await this.pollV2TaskStatus(taskId)] *)
Definition poll (pollEnv : nat -> FetchOutcome) : Try JsValue * list Call :=
  match pollV2TaskStatus pollEnv None with
  | (Resolved v, evs) => (Done v, [Polls evs])
  | (Rejected e, evs) => (Raise (ThrownError e), [Polls evs])
  end.

(** [generateSummary(transcription, sessionId, templateId)], given what
    the fetch of the summarize endpoint does and how the backend answers
    the status requests of the task. The method has no [catch]: what the
    fetch, [json()] or the poll rejects with (for the fetch, the
    [TypeError] of a network failure) is passed on as it is. *)
Definition generateSummary (c : APIClient) (sessionId : string)
    (f : Fetched) (pollEnv : nat -> FetchOutcome)
  : Try AISummaryResponse * list Call :=
  let url := v2BaseURL c +:+ "/v2/sessions/" +:+ sessionId +:+ "/summarize" in
  match f with
  | FetchFails e => (Raise (ThrownError e), [Fetches url])
  | Answer http _ body =>
      if negb (ok http) then
        (Raise (ThrownError
                  {| message := "Summary generation failed: "
                                +:+ show_int http |}),
         [Fetches url])
      else
        match json body with
        | Raise t => (Raise t, [Fetches url])
        | Done data =>
            if isAsyncResponse data then
              let '(result, calls) := poll pollEnv in
              (r ← result; summaryOf r, Fetches url :: calls)
            else (summaryOf data, [Fetches url])
        end
  end.

(** [SessionFinalizeResponse] as [finalizeSession] builds it. *)
Record SessionFinalizeResponse : Type := {
  finalize_message : JsValue;
  finalize_session_id : string;
  finalize_status : string;
  final_data : JsValue
}.

(** [{ total_duration_seconds: 0, transcription_saved: true }] *)
Definition defaultFinalData : JsValue :=
  JsObject [("total_duration_seconds"%string, JsNumber 0);
            ("transcription_saved"%string, JsBool true)].

(** [data.task_id && data.status === "started"], once [data.task_id] has
    been read. *)
Definition startedTask (task_id : option JsValue) (data : JsValue) : bool :=
  match task_id with
  | Some t =>
      truthy t
      && match data with
         | JsObject fields =>
             match js_field "status" fields with
             | Some (JsString st) => String.eqb st "started"
             | _ => false
             end
         | _ => false
         end
  | None => false
  end.

(** [finalizeSession(sessionId)], given what the fetch of the finalize
    endpoint does and how the backend answers the status requests. *)
Definition finalizeSession (c : APIClient) (sessionId : string)
    (f : Fetched) (pollEnv : nat -> FetchOutcome)
  : Try SessionFinalizeResponse * list Call :=
  let url := v2BaseURL c +:+ "/v2/sessions/" +:+ sessionId +:+ "/finalize" in
  match f with
  | FetchFails e => (Raise (ThrownError e), [Fetches url])
  | Answer http _ body =>
      if negb (ok http) then
        (Raise (ThrownError
                  {| message := "会话结束失败: " +:+ show_int http |}),
         [Fetches url])
      else
        match json body with
        | Raise t => (Raise t, [Fetches url])
        | Done data =>
            match js_prop "task_id" data with
            | Raise t => (Raise t, [Fetches url])
            | Done task_id =>
                if startedTask task_id data then
                  let '(result, calls) := poll pollEnv in
                  (r ← result;
                   Done {| finalize_message :=
                             JsString "Session finalized successfully.";
                           finalize_session_id := sessionId;
                           finalize_status := "completed";
                           final_data := r |},
                   Fetches url :: calls)
                else
                  (Done {| finalize_message :=
                             js_or_default
                               (js_opt_prop "message" (Some data))
                               (JsString "Session finalized successfully.");
                           finalize_session_id := sessionId;
                           finalize_status := "completed";
                           final_data :=
                             js_or_default
                               (js_opt_prop "result" (Some data))
                               defaultFinalData |},
                   [Fetches url])
            end
        end
  end.

(** What [generateSessionSummary] resolves to. *)
Record SessionSummary : Type := {
  session_summary : option JsValue;
  session_metadata : JsValue
}.

(** [generateSessionSummary(sessionId, force, templateId)]; its [catch]
    block logs and rethrows. *)
Definition generateSessionSummary (c : APIClient) (sessionId : string)
    (f : Fetched) (pollEnv : nat -> FetchOutcome)
  : Try SessionSummary * list Call :=
  let url := v2BaseURL c +:+ "/v2/sessions/" +:+ sessionId +:+ "/ai-summary" in
  match getAuthToken c with
  | None => (Raise (ThrownError {| message := "用户未认证，无法生成AI总结" |}), [])
  | Some token =>
      if String.eqb token "" then
        (Raise (ThrownError {| message := "用户未认证，无法生成AI总结" |}), [])
      else
        match f with
        | FetchFails e => (Raise (ThrownError e), [Fetches url])
        | Answer http statusText body =>
            if negb (ok http) then
              (detail ← js_prop "detail" (json_or_empty body);
               Raise (ThrownError
                        {| message :=
                             "提交AI总结任务失败: " +:+ show_int http +:+ " - "
                             +:+ to_text
                                   (js_or_default detail
                                      (JsString statusText)) |}),
               [Fetches url])
            else
              match (taskData ← json body; js_prop "task_id" taskData) with
              | Raise t => (Raise t, [Fetches url])
              | Done _ =>
                  let '(result, calls) := poll pollEnv in
                  (r ← result;
                   s ← js_prop "summary" r;
                   Done {| session_summary := s;
                           session_metadata :=
                             JsObject [("generated_by"%string,
                                        JsString "v2_async_task")] |},
                   Fetches url :: calls)
              end
        end
  end.

(** [getTemplates()] *)
Definition getTemplates (c : APIClient) (f : Fetched)
  : Try JsValue * list Call :=
  match getAuthToken c with
  | None => (Raise (ThrownError {| message := "用户未认证，无法加载模板" |}), [])
  | Some token =>
      if String.eqb token "" then
        (Raise (ThrownError {| message := "用户未认证，无法加载模板" |}), [])
      else (request c "/templates/" f, [Fetches (finalUrl c "/templates/")])
  end.

(** What [retranscribeSession] resolves to: the object it builds once
    the V2 task is submitted (with [taskData.task_id]), the answer of the
    V1 endpoint, or the object it builds when both failed. *)
Inductive RetranscribeResponse : Type :=
| Submitted (task_id : option JsValue)
| V1Answer (v : JsValue)
| Unavailable.

(** [retranscribeSession(sessionId)], given what the fetch of the V2
    endpoint does, how the backend answers the status requests of the
    task, and what the fetch of the V1 endpoint does. The poll is started
    but not awaited: whatever it settles to is only logged or announced by
    a [retranscriptionCompleted] event. *)
Definition retranscribeSession (c : APIClient) (sessionId : string)
    (v2 : Fetched) (pollEnv : nat -> FetchOutcome) (v1 : Fetched)
  : Try RetranscribeResponse * list Call :=
  let url2 :=
    v2BaseURL c +:+ "/v2/sessions/" +:+ sessionId +:+ "/retranscribe" in
  let endpoint1 := "/sessions/" +:+ sessionId +:+ "/retranscribe" in
  let submit : Try (option JsValue) :=
    match v2 with
    | FetchFails e => Raise (ThrownError e)
    | Answer http _ body =>
        if negb (ok http) then
          Raise (ThrownError
                   {| message := "重新转录失败: " +:+ show_int http |})
        else taskData ← json body; js_prop "task_id" taskData
    end in
  match submit with
  | Done task_id =>
      (Done (Submitted task_id), Fetches url2 :: snd (poll pollEnv))
  | Raise _ =>
      (catch (v ← request c endpoint1 v1; Done (V1Answer v))
         (fun _ => Done Unavailable),
       [Fetches url2; Fetches (finalUrl c endpoint1)])
  end.

(** [!response.success] for what [retranscribeSession] resolved to. *)
Definition refused (response : RetranscribeResponse) : Try bool :=
  match response with
  | Submitted _ => Done false
  | V1Answer v => s ← js_prop "success" v;
                  Done (negb (match s with
                              | Some x => truthy x
                              | None => false
                              end))
  | Unavailable => Done true
  end.

(** [response.message || '重新转录请求失败'] *)
Definition refusal_message (response : RetranscribeResponse) : string :=
  match response with
  | Submitted _ => "重新转录任务已提交，正在后台处理"
  | V1Answer v =>
      to_text (js_or_default (js_opt_prop "message" (Some v))
                 (JsString "重新转录请求失败"))
  | Unavailable => "重新转录功能暂时不可用"
  end.

End Conversions.

End Api.

(** ** The subscription manager: [subscriptionManager] *)
Module Channels.

(** What a realtime subscription listens to: the table, the server-side
    row filter, and the session ids the client-side handler lets through
    ([None] when the handler does not filter). *)
Record Topic : Type := {
  table : string;
  filter : option string;
  sessionIds : option (list string)
}.

(** The object returned by [supabase.channel(name).on(...).subscribe(...)]:
    one transport subscription. [serial] tells apart two subscriptions that
    were opened with the same name and topic. *)
Record Channel : Type := {
  serial : nat;
  name : string;
  topic : Topic
}.

#[export] Instance Topic_eq_dec : EqDecision Topic.
Proof. solve_decision. Defined.

#[export] Instance Channel_eq_dec : EqDecision Channel.
Proof. solve_decision. Defined.

(** The manager's map together with the transport it drives:
    [subscriptions] lists every transport subscription opened so far,
    oldest first, and [unsubscribed] those whose [unsubscribe()] call
    went through. *)
Record World : Type := {
  activeChannels : gmap string Channel;
  subscriptions : list Channel;
  unsubscribed : list Channel
}.

(** The guarded part of [createChannel] and [createTranscriptionChannel]:
    the membership test, then the subscription and the insertion inside
    [try]. [throws] says whether the transport raises while the
    subscription is being built. *)
Definition create (channelName : string) (t : Topic) (throws : bool)
    (w : World) : option Channel * World :=
  match activeChannels w !! channelName with
  | Some existing => (Some existing, w)
  | None =>
      if throws then (None, w)
      else
        let channel :=
          {| serial := length (subscriptions w);
             name := channelName;
             topic := t |} in
        (Some channel,
         {| activeChannels := <[channelName := channel]> (activeChannels w);
            subscriptions := subscriptions w ++ [channel];
            unsubscribed := unsubscribed w |})
  end.

(** [createChannel(channelName, userId, callback)] *)
Definition createChannel (channelName userId : string) :=
  create channelName
    {| table := "recording_sessions";
       filter := Some ("user_id=eq." +:+ userId);
       sessionIds := None |}.

(** [createTranscriptionChannel(channelName, sessionIds, callback)] *)
Definition createTranscriptionChannel (channelName : string)
    (ids : list string) :=
  create channelName
    {| table := "transcriptions"; filter := None; sessionIds := Some ids |}.

(** [removeChannel(channelName)]; [throws] says whether
    [channel.unsubscribe()] raises. *)
Definition removeChannel (channelName : string) (throws : bool) (w : World)
  : World :=
  match activeChannels w !! channelName with
  | Some channel =>
      if throws then
        (* catch: remove from the mapping even if unsubscribe fails *)
        {| activeChannels := delete channelName (activeChannels w);
           subscriptions := subscriptions w;
           unsubscribed := unsubscribed w |}
      else
        {| activeChannels := delete channelName (activeChannels w);
           subscriptions := subscriptions w;
           unsubscribed := unsubscribed w ++ [channel] |}
  | None => w
  end.

(** The status callback handed to [subscribe]. *)
Definition onStatus (channelName status : string) (throws : bool) (w : World)
  : World :=
  if String.eqb status "SUBSCRIBED" then w
  else if String.eqb status "CHANNEL_ERROR" then
    removeChannel channelName throws w
  else if String.eqb status "TIMED_OUT" then
    removeChannel channelName throws w
  else if String.eqb status "CLOSED" then
    {| activeChannels := delete channelName (activeChannels w);
       subscriptions := subscriptions w;
       unsubscribed := unsubscribed w |}
  else w.

(** [hasChannel(channelName)] *)
Definition hasChannel (channelName : string) (w : World) : bool :=
  bool_decide (is_Some (activeChannels w !! channelName)).

(** [getActiveChannelCount()] *)
Definition getActiveChannelCount (w : World) : nat :=
  size (activeChannels w).

(** [getActiveChannels()]: the names in the map. A JavaScript [Map] lists
    them in insertion order, which the [gmap] does not record; the list
    here is in the order in which the [gmap] enumerates its keys. *)
Definition getActiveChannels (w : World) : list string :=
  (map_to_list (activeChannels w)).*1.

(** [channelNames.forEach(name => this.removeChannel(name))]; [throws n]
    says whether [unsubscribe()] raises for the channel stored under
    [n]. *)
Definition removeEach (throws : string -> bool) (channelNames : list string)
    (w : World) : World :=
  foldl (fun acc n => removeChannel n (throws n) acc) w channelNames.

(** [cleanupAllChannels()] *)
Definition cleanupAllChannels (throws : string -> bool) (w : World) : World :=
  let w' := removeEach throws (getActiveChannels w) w in
  (* force clear mapping *)
  {| activeChannels := ∅;
     subscriptions := subscriptions w';
     unsubscribed := unsubscribed w' |}.

(** [RealtimePayload], with the properties the handlers read or pass on
    ([table] and [schema] are only carried along). *)
Record RealtimePayload : Type := {
  eventType : string;
  new : option (list (string * JsValue));
  old : option (list (string * JsValue))
}.

(** [payload.new?.session_id || payload.old?.session_id] *)
Definition payloadSessionId (payload : RealtimePayload) : option JsValue :=
  js_or (new payload ≫= js_field "session_id")
        (old payload ≫= js_field "session_id").

(** [sessionId && typeof sessionId === 'string' &&
     sessionIds.includes(sessionId)] *)
Definition watches (ids : list string) (payload : RealtimePayload) : bool :=
  match payloadSessionId payload with
  | Some (JsString s) => negb (String.eqb s "") && bool_decide (s ∈ ids)
  | _ => false
  end.

(** Does the [postgres_changes] handler of a channel pass the payload on
    to the consumer's [callback]? [hidden] is [typeof document !==
    'undefined' && document.hidden]. The handler of [createChannel] only
    checks visibility; that of [createTranscriptionChannel] also checks
    the session id. Whatever [callback] throws is caught and dropped. *)
Definition delivers (hidden : bool) (t : Topic) (payload : RealtimePayload)
  : bool :=
  if hidden then false
  else match sessionIds t with
       | None => true
       | Some ids => watches ids payload
       end.

(** A row change of the [transcriptions] table: an update that moves a
    transcription from session [from] to session [to], and the deletion of
    a transcription of session [from]. *)
Definition moved (from to : string) : RealtimePayload :=
  {| eventType := "UPDATE";
     new := Some [("id"%string, JsString "t1");
                  ("session_id"%string, JsString to)];
     old := Some [("id"%string, JsString "t1");
                  ("session_id"%string, JsString from)] |}.

Definition deleted (from : string) : RealtimePayload :=
  {| eventType := "DELETE";
     new := Some [];
     old := Some [("id"%string, JsString "t1");
                  ("session_id"%string, JsString from)] |}.

(** A manager that tracks nothing yet, and the same manager after
    [createChannel("sessions-u1", "u1", ...)]. *)
Definition sessions_topic : Topic :=
  {| table := "recording_sessions"; filter := Some "user_id=eq.u1";
     sessionIds := None |}.

Definition first_channel : Channel :=
  {| serial := 0; name := "sessions-u1"; topic := sessions_topic |}.

Definition empty_world : World :=
  {| activeChannels := ∅; subscriptions := []; unsubscribed := [] |}.

Definition one_channel_world : World :=
  {| activeChannels := {[ "sessions-u1"%string := first_channel ]};
     subscriptions := [first_channel]; unsubscribed := [] |}.

End Channels.

(** ** Retranscription tracking in [HomePage] *)
Module Retranscribe.

(** [segments] of a transcription as the code probes it: an array, a
    string, or anything else (absent included). *)
Inductive Segments : Type :=
| SegArray (items : list JsValue)
| SegString (s : string)
| SegOther.

(** The properties of [transcriptions[0]] that the signature reads. A
    character of [content] stands for one UTF-16 code unit. *)
Record Transcription : Type := {
  transcription_id : option string;
  content : option string;
  segments : Segments
}.

Record Session : Type := {
  session_id : string;
  status : string;
  transcriptions : option (list Transcription)
}.

(** [{ id?: string; contentLength: number; segmentsLength: number }] *)
Record Signature : Type := {
  id : option string;
  contentLength : nat;
  segmentsLength : nat
}.

#[export] Instance Signature_eq_dec : EqDecision Signature.
Proof. solve_decision. Defined.

(** [Array.isArray(s) ? s.length : typeof s === 'string' ? s.length : 0] *)
Definition segmentsLengthOf (s : Segments) : nat :=
  match s with
  | SegArray items => length items
  | SegString str => String.length str
  | SegOther => 0%nat
  end.

(** [transcriptions && transcriptions.length > 0 ? transcriptions[0]
    : undefined] *)
Definition firstTranscription (s : Session) : option Transcription :=
  match transcriptions s with
  | Some (t :: _) => Some t
  | _ => None
  end.

(** The signature of a session's first transcription, as both
    [handleRetranscribe] (for the baseline) and the completion effect (for
    [currentSignature]) compute it. *)
Definition signatureOf (s : Session) : Signature :=
  match firstTranscription s with
  | Some t =>
      {| id := transcription_id t;
         contentLength :=
           match content t with
           | Some c => String.length c
           | None => 0%nat
           end;
         segmentsLength := segmentsLengthOf (segments t) |}
  | None => {| id := None; contentLength := 0; segmentsLength := 0 |}
  end.

(** The comparison of the completion effect:
    [a.id !== b.id || a.contentLength !== b.contentLength ||
     a.segmentsLength !== b.segmentsLength]. *)
Definition differs (a b : Signature) : bool :=
  negb (bool_decide (id a = id b))
  || negb (Nat.eqb (contentLength a) (contentLength b))
  || negb (Nat.eqb (segmentsLength a) (segmentsLength b)).

(** The [useState] cells that track a retranscription. *)
Record TrackState : Type := {
  isRetranscribing : bool;
  hasSeenProcessing : bool;
  retranscribeBaseline : option Signature;
  forceHideRetranscribeOverlay : bool
}.

(** What a handler asks React to do: state updates, which take effect
    after the handler has run, and the success toast. *)
Inductive Action : Type :=
| SetIsRetranscribing (b : bool)
| SetHasSeenProcessing (b : bool)
| SetRetranscribeBaseline (o : option Signature)
| SetForceHideRetranscribeOverlay (b : bool)
| ToastSuccess (msg : string).

Definition apply_action (st : TrackState) (a : Action) : TrackState :=
  match a with
  | SetIsRetranscribing b =>
      {| isRetranscribing := b;
         hasSeenProcessing := hasSeenProcessing st;
         retranscribeBaseline := retranscribeBaseline st;
         forceHideRetranscribeOverlay := forceHideRetranscribeOverlay st |}
  | SetHasSeenProcessing b =>
      {| isRetranscribing := isRetranscribing st;
         hasSeenProcessing := b;
         retranscribeBaseline := retranscribeBaseline st;
         forceHideRetranscribeOverlay := forceHideRetranscribeOverlay st |}
  | SetRetranscribeBaseline o =>
      {| isRetranscribing := isRetranscribing st;
         hasSeenProcessing := hasSeenProcessing st;
         retranscribeBaseline := o;
         forceHideRetranscribeOverlay := forceHideRetranscribeOverlay st |}
  | SetForceHideRetranscribeOverlay b =>
      {| isRetranscribing := isRetranscribing st;
         hasSeenProcessing := hasSeenProcessing st;
         retranscribeBaseline := retranscribeBaseline st;
         forceHideRetranscribeOverlay := b |}
  | ToastSuccess _ => st
  end.

(** The state of the next render: the queued updates applied in order. *)
Definition commit (st : TrackState) (acts : list Action) : TrackState :=
  fold_left apply_action acts st.

Definition completedToast : Action := ToastSuccess "转录重新处理完成！".

(** [sessions.find(s => s.id === sessionId)] *)
Definition findSession (sessionId : string) (sessions : list Session)
  : option Session :=
  List.find (fun s => String.eqb (session_id s) sessionId) sessions.

(** The completion [useEffect]. Its body reads the state of the render it
    belongs to ([st]) throughout, whatever updates it has queued meanwhile.
    The block that loads the transcript into [currentTranscript] and
    [fullTranscriptText] is left out: it neither reads nor writes a
    tracking cell. *)
Definition completionEffect (selectedSessionId : string)
    (sessions : list Session) (st : TrackState) : list Action :=
  if String.eqb selectedSessionId "" then []
  else
    match findSession selectedSessionId sessions with
    | None => []
    | Some selectedSession =>
        let status := status selectedSession in
        (if String.eqb status "processing" && isRetranscribing st
            && negb (hasSeenProcessing st)
         then [SetHasSeenProcessing true] else [])
        ++
        (if isRetranscribing st && hasSeenProcessing st
            && String.eqb status "completed"
         then [SetIsRetranscribing false; SetHasSeenProcessing false;
               completedToast]
         else [])
        ++
        (if isRetranscribing st && String.eqb status "completed" then
           let currentSignature := signatureOf selectedSession in
           match retranscribeBaseline st with
           | Some baseline =>
               if differs currentSignature baseline then
                 [SetIsRetranscribing false; SetHasSeenProcessing false;
                  SetRetranscribeBaseline None; completedToast]
               else []
           | None => []
           end
         else [])
        ++
        (if negb (String.eqb status "completed")
            && negb (String.eqb status "processing")
         then [SetIsRetranscribing false; SetHasSeenProcessing false;
               SetRetranscribeBaseline None]
         else [])
    end.

(** One refresh: the effect runs and its updates are committed. *)
Definition refresh (selectedSessionId : string) (sessions : list Session)
    (st : TrackState) : TrackState :=
  commit st (completionEffect selectedSessionId sessions st).

(** *** The fallback timer of [handleRetranscribe] *)

(** How one run of [fallbackCheck] ends. *)
Inductive Verdict : Type :=
| NotTracking
| Success
| Timeout
| Rearm (delay : Z).

Definition closeOverlay : list Action :=
  [SetIsRetranscribing false; SetHasSeenProcessing false;
   SetRetranscribeBaseline None; SetForceHideRetranscribeOverlay true].

(** [s && s.status === 'completed'] for
    [s = sessions.find(s => s.id === sessionId)] *)
Definition sessionCompleted (sessionId : string) (sessions : list Session)
  : bool :=
  match findSession sessionId sessions with
  | Some s => String.eqb (status s) "completed"
  | None => false
  end.

(** [fallbackCheck], given what it reads: [Date.now()],
    [isRetranscribingRef.current] and [sessionsRef.current]. *)
Definition fallbackCheck (retranscribeSessionId : string) (startTs now : Z)
    (isRetranscribingRef : bool) (sessionsRef : list Session)
  : Verdict * list Action :=
  if negb isRetranscribingRef then (NotTracking, [])
  else if sessionCompleted retranscribeSessionId sessionsRef then
    (Success, closeOverlay)
  else if now - startTs >? 4000 then (Timeout, closeOverlay)
  else (Rearm 300, []).

(** What the world looks like when a timer fires: how many milliseconds
    after its due time it runs, and the sessions then held by
    [sessionsRef]. *)
Record Tick : Type := {
  lateness : nat;
  sessionsRef : list Session
}.

(** The chain of timers started by [setTimeout(fallbackCheck, 400)]:
    the [k]-th run is due at [due], reads the world [ticks k], and the flag
    mirrored into [isRetranscribingRef] is that of the tracked state (no
    other handler runs in between). [None] when [fuel] runs is too few to
    see the chain end. *)
Fixpoint fallbackLoop (retranscribeSessionId : string) (startTs : Z)
    (ticks : nat -> Tick) (fuel k : nat) (due : Z) (st : TrackState)
  : option (Verdict * TrackState) :=
  match fuel with
  | O => None
  | S fuel' =>
      let now := due + Z.of_nat (lateness (ticks k)) in
      match fallbackCheck retranscribeSessionId startTs now
              (isRetranscribing st) (sessionsRef (ticks k)) with
      | (Rearm delay, acts) =>
          fallbackLoop retranscribeSessionId startTs ticks fuel' (S k)
            (now + delay) (commit st acts)
      | (v, acts) => Some (v, commit st acts)
      end
  end.


(** The time at which the [k]-th run of a chain armed at [startTs] reads
    [Date.now()]: the first timer is set for 400 ms, each later one for
    300 ms, and each fires [lateness] ms after it is due. *)
Fixpoint runTime (startTs : Z) (ticks : nat -> Tick) (k : nat) : Z :=
  match k with
  | O => startTs + 400 + Z.of_nat (lateness (ticks 0%nat))
  | S k' => runTime startTs ticks k' + 300 + Z.of_nat (lateness (ticks k))
  end.

(** The same chain with the other writers of the tracking cells let in:
    [others k st] is what the renders, the completion effect and the other
    handlers have made of the cells [st] left by the previous run (for
    [k = 0], of the cells at arming) by the time the [k]-th run reads
    [isRetranscribingRef]. The result tells which run was the last. *)
Fixpoint fallbackChain (retranscribeSessionId : string) (startTs : Z)
    (ticks : nat -> Tick) (others : nat -> TrackState -> TrackState)
    (fuel k : nat) (due : Z) (st : TrackState)
  : option (nat * Verdict * TrackState) :=
  match fuel with
  | O => None
  | S fuel' =>
      let now := due + Z.of_nat (lateness (ticks k)) in
      let seen := others k st in
      match fallbackCheck retranscribeSessionId startTs now
              (isRetranscribing seen) (sessionsRef (ticks k)) with
      | (Rearm delay, acts) =>
          fallbackChain retranscribeSessionId startTs ticks others fuel'
            (S k) (now + delay) (commit seen acts)
      | (v, acts) => Some (k, v, commit seen acts)
      end
  end.

Definition armFallbackChain (retranscribeSessionId : string) (startTs : Z)
    (ticks : nat -> Tick) (others : nat -> TrackState -> TrackState)
    (fuel : nat) (st : TrackState) : option (nat * Verdict * TrackState) :=
  fallbackChain retranscribeSessionId startTs ticks others fuel 0
    (startTs + 400) st.

(** The tracking cells as the [k]-th run finds them when the runs before
    it have re-armed the timer (a run that re-arms writes nothing). *)
Fixpoint seenAt (others : nat -> TrackState -> TrackState) (st : TrackState)
    (k : nat) : TrackState :=
  match k with
  | O => others 0%nat st
  | S k' => others k (seenAt others st k')
  end.

(** *** [handleRetranscribe] *)

(** How the awaited calls of [handleRetranscribe] settle: either something
    in its [try] block throws (no API client, the request or the session
    refresh rejects, the response says [success: false]), or both calls
    return and [Date.now()] then reads [startTs]. *)
Inductive Submission : Type :=
| Throws (msg : string)
| Accepted (startTs : Z).

(** How a call of the handler ends. *)
Inductive Ending : Type :=
| NotSubmitted
| SubmissionFailed
| Ended (v : Verdict).

(** The updates made before the request is sent. *)
Definition startTracking (selectedSession : Session) : list Action :=
  [SetIsRetranscribing true; SetHasSeenProcessing false;
   SetRetranscribeBaseline (Some (signatureOf selectedSession))].

(** The updates of the [catch] block. *)
Definition resetTracking : list Action :=
  [SetIsRetranscribing false; SetHasSeenProcessing false;
   SetRetranscribeBaseline None].

(** [handleRetranscribe], followed to the end of the timer chain it starts.
    The handler awaits a 300 ms pause, the request and [fetchSessions()]
    before it arms the timer or reaches its [catch] block: [meanwhile] is
    what the renders and the completion effect make of the tracking cells
    during these awaits, and [others] what they make of them between the
    runs of the timer. *)
Definition handleRetranscribe (selectedSessionId : string)
    (sessions : list Session) (sub : Submission)
    (meanwhile : TrackState -> TrackState)
    (others : nat -> TrackState -> TrackState) (ticks : nat -> Tick)
    (fuel : nat) (st : TrackState) : option (Ending * TrackState) :=
  if String.eqb selectedSessionId "" then Some (NotSubmitted, st)
  else
    match findSession selectedSessionId sessions with
    | None => Some (NotSubmitted, st)
    | Some selectedSession =>
        if negb (String.eqb (status selectedSession) "completed") then
          Some (NotSubmitted, st)
        else
          let st1 := meanwhile (commit st (startTracking selectedSession)) in
          match sub with
          | Throws _ => Some (SubmissionFailed, commit st1 resetTracking)
          | Accepted startTs =>
              match armFallbackChain selectedSessionId startTs ticks others
                      fuel st1 with
              | Some (_, v, st') => Some (Ended v, st')
              | None => None
              end
          end
    end.

(** *** The overlay and the writers of the tracking cells *)

(** The condition under which the page renders the processing overlay:
    [selectedSession?.status === 'processing' ||
     (isRetranscribing && !forceHideRetranscribeOverlay)], where
    [selectedSession] is [sessions.find(s => s.id === selectedSessionId)]. *)
Definition overlayVisible (selectedSessionId : string)
    (sessions : list Session) (st : TrackState) : bool :=
  match findSession selectedSessionId sessions with
  | Some s => String.eqb (status s) "processing"
  | None => false
  end
  || (isRetranscribing st && negb (forceHideRetranscribeOverlay st)).

(** The batches of updates that the page ever queues on the tracking
    cells: those of the completion effect (run in any render), of
    [handleRetranscribe] before the request and in its [catch] block, and
    of [fallbackCheck]. *)
Inductive writes : list Action -> Prop :=
| writes_effect sel sessions st :
    writes (completionEffect sel sessions st)
| writes_start selectedSession :
    writes (startTracking selectedSession)
| writes_reset :
    writes resetTracking
| writes_fallback sid startTs now flag sessions :
    writes (snd (fallbackCheck sid startTs now flag sessions)).

(** One update takes effect. Updates of one batch may or may not be
    committed together, so the steps are single updates. *)
Inductive step : TrackState -> TrackState -> Prop :=
| step_update acts a st :
    writes acts -> a ∈ acts -> step st (apply_action st a).

(** How many success toasts a batch shows. *)
Definition toastCount (acts : list Action) : nat :=
  length (List.filter
            (fun a => match a with ToastSuccess _ => true | _ => false end)
            acts).


(** *** Sample data *)

(** A session [s1] whose first transcription [t1] has 42 characters of
    content and 3 segments, under a given status. *)
Definition session_s1 (st : string) : Session :=
  {| session_id := "s1";
     status := st;
     transcriptions :=
       Some [{| transcription_id := Some "t1"%string;
                content := Some "a meeting transcript of forty-two letters."%string;
                segments := SegArray [JsNull; JsNull; JsNull] |}] |}.

(** Tracking just started from an empty transcription [t1]. *)
Definition tracking_t1 : TrackState :=
  {| isRetranscribing := true;
     hasSeenProcessing := false;
     retranscribeBaseline :=
       Some {| id := Some "t1"%string; contentLength := 0;
               segmentsLength := 0 |};
     forceHideRetranscribeOverlay := false |}.

Definition idle : TrackState :=
  {| isRetranscribing := false;
     hasSeenProcessing := false;
     retranscribeBaseline := None;
     forceHideRetranscribeOverlay := false |}.

(** Timers that fire on time while the backend keeps the session in
    [processing]. *)
Definition punctual_ticks : nat -> Tick :=
  fun _ => {| lateness := 0; sessionsRef := [session_s1 "processing"] |}.

(** Timers that fire 20 ms late while the backend reports [processing] to
    the first two runs and [completed] from the third on. *)
Definition completing_ticks : nat -> Tick :=
  fun k => {| lateness := 20;
              sessionsRef :=
                [session_s1 (if (k <? 2)%nat then "processing"
                             else "completed")] |}.

(** Nobody else writes the tracking cells. *)
Definition nobody : nat -> TrackState -> TrackState := fun _ st => st.

(** Before each run the page has rendered the sessions that the run reads
    and the completion effect has run on them. *)
Definition effect_first (selectedSessionId : string) (ticks : nat -> Tick)
  : nat -> TrackState -> TrackState :=
  fun k st => refresh selectedSessionId (sessionsRef (ticks k)) st.

End Retranscribe.

(** ** The page: handlers that tie the pieces together *)
Module Page.
Import Poller Api Retranscribe.

(** The cells that [handleSessionCreated] writes. *)
Record Selection : Type := {
  currentRecordingSessionId : string;
  selectedSessionId : string
}.

(** [handleSessionCreated(roomName)] *)
Definition handleSessionCreated (roomName : string) : Selection :=
  let actualSessionId :=
    if startsWith "intrascribe_room_" roomName
    then replace_first "intrascribe_room_" "" roomName
    else roomName in
  {| currentRecordingSessionId := actualSessionId;
     selectedSessionId := actualSessionId |}.

Section Submit.

Variable ToString : JsValue -> string.
Variable typeErrorMessage : string.

(** The part of [handleRetranscribe] between the first updates and the
    arming of the timer: the check of the API client, the awaited
    [retranscribeSession], the check of [response.success], and the
    awaited [fetchSessions()], which may reject. *)
Definition submissionOf (response : option (Try RetranscribeResponse))
    (refreshError : option Error) (startTs : Z) : Submission :=
  match response with
  | None => Throws "API客户端未初始化"
  | Some (Raise t) => Throws (thrown_message typeErrorMessage t)
  | Some (Done r) =>
      match refused r with
      | Raise t => Throws (thrown_message typeErrorMessage t)
      | Done true => Throws (refusal_message ToString r)
      | Done false =>
          match refreshError with
          | Some e => Throws (message e)
          | None => Accepted startTs
          end
      end
  end.

(** [handleRetranscribe] with the API client of the page: the request is
    [retranscribeSession] for the selected session. *)
Definition handleRetranscribeVia (apiClient : option APIClient)
    (selectedSessionId : string) (sessions : list Session)
    (v2 : Fetched) (pollEnv : nat -> FetchOutcome) (v1 : Fetched)
    (refreshError : option Error) (startTs : Z)
    (meanwhile : TrackState -> TrackState)
    (others : nat -> TrackState -> TrackState)
    (ticks : nat -> Tick) (fuel : nat) (st : TrackState)
  : option (Ending * TrackState) :=
  handleRetranscribe selectedSessionId sessions
    (submissionOf
       (c ← apiClient;
        Some (fst (retranscribeSession ToString c selectedSessionId
                     v2 pollEnv v1)))
       refreshError startTs)
    meanwhile others ticks fuel st.

End Submit.

End Page.

(** ** The Supabase client singleton: [createSupabaseClient] *)
Module Singleton.

(** A client made by [createClient]; [configured] tells the client built
    with the realtime and header options from the bare one of the
    [isCreating] branch. *)
Record Client : Type := {
  serial : nat;
  configured : bool
}.

(** The module-level variables, and every client constructed so far. *)
Record ModuleState : Type := {
  supabaseInstance : option Client;
  isCreating : bool;
  constructed : list Client
}.

Definition initial : ModuleState :=
  {| supabaseInstance := None; isCreating := false; constructed := [] |}.

(** [createSupabaseClient()]; [throws] says whether [createClient]
    raises, in which case the call raises too ([None]). *)
Definition createSupabaseClient (throws : bool) (m : ModuleState)
  : option Client * ModuleState :=
  match supabaseInstance m with
  | Some instance => (Some instance, m)
  | None =>
      if isCreating m then
        if throws then (None, m)
        else
          let client :=
            {| serial := length (constructed m); configured := false |} in
          (Some client,
           {| supabaseInstance := None;
              isCreating := true;
              constructed := constructed m ++ [client] |})
      else if throws then
        (* finally *)
        (None,
         {| supabaseInstance := None;
            isCreating := false;
            constructed := constructed m |})
      else
        let client :=
          {| serial := length (constructed m); configured := true |} in
        (Some client,
         {| supabaseInstance := Some client;
            isCreating := false;
            constructed := constructed m ++ [client] |})
  end.

(** A series of calls, with what each returned. *)
Fixpoint calls (throws : list bool) (m : ModuleState)
  : list (option Client) * ModuleState :=
  match throws with
  | [] => ([], m)
  | t :: rest =>
      let '(r, m') := createSupabaseClient t m in
      let '(rs, m'') := calls rest m' in
      (r :: rs, m'')
  end.

(** What holds of the module state after any series of calls from the
    initial state. *)
Definition settled (m : ModuleState) : Prop :=
  isCreating m = false /\
  match supabaseInstance m with
  | Some client => constructed m = [client] /\ configured client = true
  | None => constructed m = []
  end.

End Singleton.

(** * The string helper agrees with [String.prototype.includes] *)

Lemma prefix_spec (n : string) : forall h,
  String.prefix n h = true <-> exists post, h = n +:+ post.
Proof.
  induction n as [| a n IH]; intros [| b h]; cbn [String.prefix].
  - split; [intros _; exists ""%string; reflexivity | reflexivity].
  - split; [intros _; exists (String b h); reflexivity | reflexivity].
  - split; [discriminate | intros [post H]; discriminate].
  - destruct (ascii_dec a b) as [-> | Hne].
    + rewrite IH. split; intros [post H]; exists post.
      * cbn. rewrite H. reflexivity.
      * change (String b h = String b (n +:+ post)) in H.
        injection H as H. exact H.
    + split; [discriminate |]. intros [post H].
      change (String b h = String a (n +:+ post)) in H.
      injection H as Hab _. congruence.
Qed.

Lemma includes_spec (n : string) : forall h,
  includes n h = true <-> exists pre post, h = pre +:+ n +:+ post.
Proof.
  induction h as [| c h IH]; cbn [includes].
  - destruct (String.prefix n "") eqn:Hp.
    + apply prefix_spec in Hp as [post ->].
      split; [intros _; exists ""%string, post; reflexivity | reflexivity].
    + split; [discriminate |]. intros (pre & post & H).
      destruct pre; [| discriminate].
      assert (String.prefix n "" = true) by (apply prefix_spec; eauto).
      congruence.
  - destruct (String.prefix n (String c h)) eqn:Hp.
    + apply prefix_spec in Hp as [post Hpost].
      split; [intros _; exists ""%string, post; exact Hpost | reflexivity].
    + rewrite IH. split.
      * intros (pre & post & ->). exists (String c pre), post. reflexivity.
      * intros (pre & post & H). destruct pre as [| c' pre].
        -- assert (String.prefix n (String c h) = true)
             by (apply prefix_spec; eauto).
           congruence.
        -- change (String c h = String c' (pre +:+ n +:+ post)) in H.
           injection H as _ ->. eauto.
Qed.

(** * Properties of the poller *)
Module PollerSpec.
Import Poller.

(** ** One iteration *)

Lemma attempts_app (a b : list Event) :
  attempts (a ++ b) = attempts a ++ attempts b.
Proof. unfold attempts. apply omap_app. Qed.

Lemma sleeps_app (a b : list Event) : sleeps (a ++ b) = sleeps a ++ sleeps b.
Proof. unfold sleeps. apply omap_app. Qed.

(** The only [return] of the [try] block: a 2xx answer whose status is
    [completed] and whose [result] is present and truthy. *)
Lemma try_block_return attempt o v evs :
  try_block attempt o = (Return v, evs) ->
  exists http r,
    o = Responds http (Json r) /\ ok http = true /\
    status r = "completed"%string /\ result r = Some v /\ truthy v = true.
Proof.
  unfold try_block. destruct o as [e | http [e | r]]; try discriminate.
  - destruct (ok http); discriminate.
  - destruct (ok http) eqn:Hok; cbn [negb]; try discriminate.
    unfold and_present, getTaskStatus.
    cbn [isCompleted isFailed isCancelled isPending].
    destruct (String.eqb (status r) "completed") eqn:Hc.
    + destruct (result r) as [w |] eqn:Hr.
      * destruct (truthy w) eqn:Ht.
        -- intros [= <- <-]. exists http, r.
           apply String.eqb_eq in Hc. auto.
        -- repeat case_match; discriminate.
      * repeat case_match; discriminate.
    + repeat case_match; discriminate.
Qed.

(** The [catch] block never returns a value. *)
Lemma catch_block_no_return attempt maxAttempts e v evs :
  catch_block attempt maxAttempts e <> (Return v, evs).
Proof. unfold catch_block. repeat case_match; discriminate. Qed.

Lemma iteration_return attempt maxAttempts o v evs :
  iteration attempt maxAttempts o = (Return v, evs) ->
  try_block attempt o = (Return v, evs).
Proof.
  unfold iteration. destruct (try_block attempt o) as [[w | e | |] evs0];
    try (intros [= <- <-]; reflexivity); try discriminate.
  destruct (catch_block attempt maxAttempts e) as [c evs1] eqn:Hc.
  intros [= -> <-]. exfalso. exact (catch_block_no_return _ _ _ _ _ Hc).
Qed.

(** What an iteration does with an answer that is not terminal: it waits
    the base delay when the task is reported running, and only warns
    otherwise. *)
Lemma iteration_non_terminal attempt maxAttempts o :
  non_terminal o = true ->
  iteration attempt maxAttempts o =
    (if in_progress o then (Continue, [Fetch attempt; Sleep 3000])
     else match o with
          | Responds _ (Json r) =>
              (Normal, [Fetch attempt; WarnUnknownStatus (status r)])
          | _ => (Normal, [])
          end).
Proof.
  destruct o as [e | http [e | r]]; try discriminate.
  unfold non_terminal, in_progress, iteration, try_block.
  destruct (ok http); [| discriminate]. cbn [andb negb].
  destruct (isFailed (getTaskStatus r)); [discriminate |].
  destruct (isCancelled (getTaskStatus r)); [discriminate |].
  destruct (and_present (isCompleted (getTaskStatus r)) (result r)) as [v |].
  - rewrite bool_decide_eq_true_2 by eauto. discriminate.
  - intros _. destruct (isPending (getTaskStatus r)); reflexivity.
Qed.

Lemma in_progress_non_terminal o :
  in_progress o = true -> non_terminal o = true.
Proof.
  destruct o as [e | http [e | r]]; try discriminate.
  unfold in_progress, non_terminal, and_present, getTaskStatus.
  cbn [isCompleted isFailed isCancelled isPending].
  destruct (ok http); [| discriminate]. cbn [andb].
  destruct (String.eqb_spec (status r) "pending") as [-> | _];
    [intros _; reflexivity |].
  destruct (String.eqb_spec (status r) "processing") as [-> | _];
    [intros _; reflexivity | discriminate].
Qed.

(** What an iteration does with a [failed] answer: the error raised in the
    [try] block lands in the [catch] block of the same iteration, which
    rethrows it only in the last three iterations of the loop. *)
Lemma iteration_failed attempt maxAttempts http r :
  ok http = true ->
  status r = "failed"%string ->
  includes "403" (failure_message r) = false ->
  iteration attempt maxAttempts (Responds http (Json r)) =
    if maxAttempts - 3 <=? Z.of_nat attempt
    then (Throw {| message := failure_message r |}, [Fetch attempt])
    else (Normal, [Fetch attempt; Sleep 3000]).
Proof.
  intros Hok Hst H403. unfold iteration, try_block, getTaskStatus.
  rewrite Hok, Hst. cbn [negb and_present isCompleted isFailed String.eqb
    Ascii.eqb Bool.eqb].
  unfold catch_block. cbn [message]. rewrite H403.
  destruct (maxAttempts - 3 <=? Z.of_nat attempt); reflexivity.
Qed.

Lemma iteration_auth attempt maxAttempts o e evs :
  try_block attempt o = (Throw e, evs) ->
  includes "403" (message e) = true ->
  evs = [Fetch attempt] /\
  iteration attempt maxAttempts o =
    if 5 <=? Z.of_nat attempt
    then (Throw (auth_error e), [Fetch attempt])
    else (Continue, [Fetch attempt; Sleep 1000]).
Proof.
  intros Htry H403.
  assert (Hevs : evs = [Fetch attempt]).
  { revert Htry. unfold try_block.
    repeat case_match; intros [= <- <-]; reflexivity. }
  split; [exact Hevs |]. subst evs.
  unfold iteration. rewrite Htry. unfold catch_block. rewrite H403.
  destruct (5 <=? Z.of_nat attempt); reflexivity.
Qed.

(** The waits of one iteration: none, one base delay, or one short delay,
    the latter only at a loop index below 5. *)
Lemma iteration_sleeps attempt maxAttempts o :
  sleeps (snd (iteration attempt maxAttempts o)) = [] \/
  sleeps (snd (iteration attempt maxAttempts o)) = [3000] \/
  (sleeps (snd (iteration attempt maxAttempts o)) = [1000] /\
   (attempt < 5)%nat).
Proof.
  unfold iteration, try_block, catch_block.
  repeat case_match; simplify_eq; cbn; auto.
  all: right; right; split; [reflexivity | lia].
Qed.

Lemma try_block_forbidden attempt body :
  try_block attempt (Responds 403 body)
  = (Throw {| message := "HTTP 403" |}, [Fetch attempt]).
Proof. reflexivity. Qed.

(** ** The loop *)
Section Loop.

Variable env : nat -> FetchOutcome.
Variable maxAttempts : Z.

Lemma poll_from_S remaining attempt :
  poll_from env maxAttempts (S remaining) attempt =
  match iteration attempt maxAttempts (env attempt) with
  | (Return v, evs) => (Resolved v, evs)
  | (Throw e, evs) => (Rejected e, evs)
  | (_, evs) =>
      let '(out, evs') := poll_from env maxAttempts remaining (S attempt) in
      (out, evs ++ evs')
  end.
Proof. reflexivity. Qed.

(** Whenever the loop resolves, some attempt it made saw [completed] with
    exactly the returned payload. *)
Lemma poll_from_resolved remaining : forall attempt v evs,
  poll_from env maxAttempts remaining attempt = (Resolved v, evs) ->
  exists k http r,
    (attempt <= k < attempt + remaining)%nat /\
    env k = Responds http (Json r) /\ ok http = true /\
    status r = "completed"%string /\ result r = Some v /\ truthy v = true.
Proof.
  induction remaining as [| remaining IH]; intros attempt v evs.
  - discriminate.
  - rewrite poll_from_S.
    destruct (iteration attempt maxAttempts (env attempt)) as [c evs0] eqn:Hit.
    destruct c as [w | e | |].
    + intros [= -> <-]. apply iteration_return, try_block_return in Hit.
      destruct Hit as (http & r & Henv & Hrest).
      exists attempt, http, r. split; [lia | auto].
    + discriminate.
    + destruct (poll_from env maxAttempts remaining (S attempt))
        as [out evs1] eqn:Hrec.
      intros [= -> <-]. destruct (IH _ _ _ Hrec) as (k & http & r & Hk & Hrest).
      exists k, http, r. split; [lia | exact Hrest].
    + destruct (poll_from env maxAttempts remaining (S attempt))
        as [out evs1] eqn:Hrec.
      intros [= -> <-]. destruct (IH _ _ _ Hrec) as (k & http & r & Hk & Hrest).
      exists k, http, r. split; [lia | exact Hrest].
Qed.

(** A loop that only ever sees non-terminal answers runs through all its
    iterations and ends in the final [throw]. *)
Lemma poll_from_timeout remaining : forall attempt,
  (forall k, (attempt <= k < attempt + remaining)%nat ->
             non_terminal (env k) = true) ->
  let run := poll_from env maxAttempts remaining attempt in
  fst run = Rejected (timeout_error maxAttempts) /\
  attempts (snd run) = seq attempt remaining /\
  Forall (fun ms => ms = 3000) (sleeps (snd run)).
Proof.
  induction remaining as [| remaining IH]; intros attempt Hnt; cbn zeta.
  - repeat split. constructor.
  - rewrite poll_from_S.
    pose proof (Hnt attempt ltac:(lia)) as Hhere.
    rewrite (iteration_non_terminal _ _ _ Hhere).
    destruct (IH (S attempt) ltac:(intros k Hk; apply Hnt; lia))
      as (Hout & Hatt & Hsl).
    destruct (poll_from env maxAttempts remaining (S attempt)) as [out evs].
    cbn [fst snd] in *.
    destruct (in_progress (env attempt)).
    + cbn [fst snd]. rewrite attempts_app, sleeps_app, Hatt.
      repeat split; [exact Hout |]. constructor; [reflexivity | exact Hsl].
    + destruct (env attempt) as [e | http [e | r]]; try discriminate Hhere.
      cbn [fst snd]. rewrite attempts_app, sleeps_app, Hatt.
      repeat split; [exact Hout | exact Hsl].
Qed.

(** When every answer reports a running task, each attempt is followed by
    one wait of the base delay, the last attempt included. *)
Lemma poll_from_in_progress remaining : forall attempt,
  (forall k, (attempt <= k < attempt + remaining)%nat ->
             in_progress (env k) = true) ->
  snd (poll_from env maxAttempts remaining attempt) =
  flat_map (fun k => [Fetch k; Sleep 3000]) (seq attempt remaining).
Proof.
  induction remaining as [| remaining IH]; intros attempt Hip.
  - reflexivity.
  - rewrite poll_from_S.
    pose proof (Hip attempt ltac:(lia)) as Hk.
    rewrite (iteration_non_terminal _ _ _ (in_progress_non_terminal _ Hk)), Hk.
    specialize (IH (S attempt) ltac:(intros k Hlt; apply Hip; lia)).
    destruct (poll_from env maxAttempts remaining (S attempt)) as [out evs].
    cbn [snd] in *. rewrite IH. reflexivity.
Qed.

(** No poll makes more than five fast retries, since only the loop
    indexes 0 to 4 allow one. *)
Lemma fast_retries_bounded remaining : forall attempt,
  (fast_retries (snd (poll_from env maxAttempts remaining attempt))
   <= 5 - attempt)%nat.
Proof.
  induction remaining as [| remaining IH]; intros attempt.
  - cbn. lia.
  - rewrite poll_from_S.
    pose proof (iteration_sleeps attempt maxAttempts (env attempt)) as Hsl.
    specialize (IH (S attempt)).
    destruct (iteration attempt maxAttempts (env attempt)) as [c evs].
    cbn [snd] in Hsl.
    assert (Hhere : (fast_retries evs <= 1)%nat /\
                    ((5 <= attempt)%nat -> fast_retries evs = 0%nat)).
    { unfold fast_retries.
      destruct Hsl as [-> | [-> | [-> Hlt]]]; cbn; split; lia. }
    destruct c as [v | e | |]; cbn [snd]; try lia.
    all: destruct (poll_from env maxAttempts remaining (S attempt))
           as [out evs'];
      cbn [snd] in *; unfold fast_retries in *;
      rewrite sleeps_app, count_occ_app; lia.
Qed.

End Loop.

(** ** Results *)

(** C7. A poll whose status requests all succeed without ever reporting a
    terminal status makes exactly [maxAttempts] attempts (120 when the
    argument is omitted), waits only the base delay of 3000 ms (after each
    attempt when the task is reported pending or processing), and then
    rejects with the timeout error, whose message carries [maxAttempts];
    with [maxAttempts = 5] that is after exactly five attempts. *)
Theorem poll_times_out_after_maxAttempts
    (env : nat -> FetchOutcome) (maxAttempts : option Z) :
  let m := default 120 maxAttempts in
  (forall k, (k < Z.to_nat m)%nat -> non_terminal (env k) = true) ->
  let run := pollV2TaskStatus env maxAttempts in
  fst run = Rejected (timeout_error m) /\
  message (timeout_error m) =
    ("V2任务轮询超时 (" +:+ show_int m +:+ " 次尝试)")%string /\
  attempts (snd run) = seq 0 (Z.to_nat m) /\
  length (attempts (snd run)) = Z.to_nat m /\
  Forall (fun ms => ms = 3000) (sleeps (snd run)) /\
  ((forall k, (k < Z.to_nat m)%nat -> in_progress (env k) = true) ->
   snd run = flat_map (fun k => [Fetch k; Sleep 3000]) (seq 0 (Z.to_nat m))) /\
  (maxAttempts = None -> length (attempts (snd run)) = 120%nat) /\
  (maxAttempts = Some 5 ->
   run = (Rejected {| message := "V2任务轮询超时 (5 次尝试)" |}, snd run) /\
   attempts (snd run) = [0; 1; 2; 3; 4]%nat).
Proof.
  intros m Hnt run.
  change (pollV2TaskStatus env maxAttempts)
    with (poll_from env m (Z.to_nat m) 0%nat) in run.
  destruct (poll_from_timeout env m (Z.to_nat m) 0%nat
              ltac:(intros k Hk; apply Hnt; lia)) as (Hout & Hatt & Hsl).
  fold run in Hout, Hatt, Hsl.
  assert (Hlen : length (attempts (snd run)) = Z.to_nat m).
  { rewrite Hatt. apply length_seq. }
  repeat split; try assumption.
  - intros Hip. apply (poll_from_in_progress env m (Z.to_nat m) 0%nat).
    intros k Hk. apply Hip. lia.
  - intros Hmax. rewrite Hlen. subst m. rewrite Hmax. reflexivity.
  - transitivity (fst run, snd run); [apply surjective_pairing |].
    rewrite Hout. subst m. rewrite H. reflexivity.
  - rewrite Hatt. subst m. rewrite H. reflexivity.
Qed.

Lemma poll_times_out_after_maxAttempts_witness :
  let run :=
    pollV2TaskStatus (scripted [pending; processing] pending) (Some 5) in
  fst run = Rejected {| message := "V2任务轮询超时 (5 次尝试)" |} /\
  attempts (snd run) = [0; 1; 2; 3; 4]%nat.
Proof.
  pose proof (poll_times_out_after_maxAttempts
                (scripted [pending; processing] pending) (Some 5)) as H.
  cbn zeta in H.
  assert (Hnt : forall k, (k < Z.to_nat (default 120%Z (Some 5%Z)))%nat ->
                non_terminal (scripted [pending; processing] pending k) = true).
  { intros k Hk. do 5 (destruct k as [| k]; [reflexivity |]).
    vm_compute in Hk. lia. }
  destruct (H Hnt) as (Hout & _ & Hatt & _).
  split; [exact Hout | exact Hatt].
Defined.

(** C1. With the default budget, a task reported [pending], [pending] and
    then [failed] (with message "boom") from the third attempt on is not
    rejected at the third attempt: the poll waits 3000 ms after it and asks
    again, 118 times in all, before it rejects. *)
Theorem failed_status_is_retried :
  let run :=
    pollV2TaskStatus (scripted [pending; pending] (failed "boom")) None in
  fst run = Rejected {| message := "boom" |} /\
  attempts (snd run) = seq 0 118 /\
  sleeps (snd run) = replicate 117 3000.
Proof. vm_compute. repeat split. Qed.

(** A poll that saw [failed] at its third attempt can even resolve. *)
Example failed_then_completed :
  pollV2TaskStatus
    (scripted [pending; pending; failed "boom"] (completed (JsString "late")))
    None
  = (Resolved (JsString "late"),
     [Fetch 0; Sleep 3000; Fetch 1; Sleep 3000; Fetch 2; Sleep 3000; Fetch 3]).
Proof. reflexivity. Qed.

(** With [maxAttempts = 5] the third attempt falls in the last three
    iterations, and only then is [failed] fatal at once. *)
Example failed_at_third_of_five :
  pollV2TaskStatus (scripted [pending; pending] (failed "boom")) (Some 5)
  = (Rejected {| message := "boom" |},
     [Fetch 0; Sleep 3000; Fetch 1; Sleep 3000; Fetch 2]).
Proof. reflexivity. Qed.

(** C2 does not hold with a budget of auth errors counted on its own.
    After five [pending] answers the first 403 of the call is met at loop
    index 5: it is fatal at once, without any fast retry and with 114
    attempts of the overall budget left. And with [maxAttempts = 3] three
    403 answers in a row end in the timeout error, not in the auth
    error. *)
Lemma auth_budget_is_the_loop_index :
  pollV2TaskStatus
    (scripted [pending; pending; pending; pending; pending] forbidden) None
  = (Rejected {| message := "认证失败，请重新登录: HTTP 403" |},
     [Fetch 0; Sleep 3000; Fetch 1; Sleep 3000; Fetch 2; Sleep 3000;
      Fetch 3; Sleep 3000; Fetch 4; Sleep 3000; Fetch 5])
  /\
  pollV2TaskStatus (scripted [] forbidden) (Some 3)
  = (Rejected {| message := "V2任务轮询超时 (3 次尝试)" |},
     [Fetch 0; Sleep 1000; Fetch 1; Sleep 1000; Fetch 2; Sleep 1000]).
Proof. split; reflexivity. Qed.

(** C2, amended. A caught error whose message contains "403" is treated
    according to the loop index of the attempt that caught it: below index
    5 the poll waits 1000 ms (not 3000) and goes on to the next attempt,
    from index 5 on it rejects at once with the auth error. Hence, with 403
    answers to the first six attempts and [maxAttempts] at least 6, the
    poll rejects with the auth error after the sixth attempt, the attempts
    being separated by five waits of 1000 ms; and no poll ever makes more
    than five such fast retries. *)
Theorem auth_error_fast_retry
    (env : nat -> FetchOutcome) (maxAttempts : option Z) :
  (forall remaining attempt e evs,
     try_block attempt (env attempt) = (Throw e, evs) ->
     includes "403" (message e) = true ->
     poll_from env (default 120 maxAttempts) (S remaining) attempt =
       if 5 <=? Z.of_nat attempt
       then (Rejected (auth_error e), [Fetch attempt])
       else (fst (poll_from env (default 120 maxAttempts) remaining (S attempt)),
             [Fetch attempt; Sleep 1000]
             ++ snd (poll_from env (default 120 maxAttempts) remaining
                       (S attempt))))
  /\
  (6 <= default 120 maxAttempts ->
   (forall k, (k < 6)%nat -> exists body, env k = Responds 403 body) ->
   pollV2TaskStatus env maxAttempts
   = (Rejected {| message := "认证失败，请重新登录: HTTP 403" |},
      [Fetch 0; Sleep 1000; Fetch 1; Sleep 1000; Fetch 2; Sleep 1000;
       Fetch 3; Sleep 1000; Fetch 4; Sleep 1000; Fetch 5]))
  /\
  (fast_retries (snd (pollV2TaskStatus env maxAttempts)) <= 5)%nat.
Proof.
  assert (Hstep : forall remaining attempt e evs,
     try_block attempt (env attempt) = (Throw e, evs) ->
     includes "403" (message e) = true ->
     poll_from env (default 120 maxAttempts) (S remaining) attempt =
       if 5 <=? Z.of_nat attempt
       then (Rejected (auth_error e), [Fetch attempt])
       else (fst (poll_from env (default 120 maxAttempts) remaining (S attempt)),
             [Fetch attempt; Sleep 1000]
             ++ snd (poll_from env (default 120 maxAttempts) remaining
                       (S attempt)))).
  { intros remaining attempt e evs Htry H403. rewrite poll_from_S.
    destruct (iteration_auth attempt (default 120 maxAttempts) _ _ _ Htry H403)
      as [_ ->].
    destruct (5 <=? Z.of_nat attempt); [reflexivity |].
    destruct (poll_from env (default 120 maxAttempts) remaining (S attempt));
      reflexivity. }
  split; [exact Hstep |].
  split; [| unfold pollV2TaskStatus;
            etransitivity; [apply fast_retries_bounded | lia]].
  intros Hmax Henv. unfold pollV2TaskStatus.
  destruct (Z.to_nat (default 120 maxAttempts)) as [| [| [| [| [| [| n]]]]]] eqn:Hn;
    try lia.
  assert (Hthrow : forall k, (k < 6)%nat ->
            try_block k (env k) = (Throw {| message := "HTTP 403" |}, [Fetch k])).
  { intros k Hk. destruct (Henv k Hk) as [body ->]. apply try_block_forbidden. }
  rewrite (Hstep _ 0%nat _ _ (Hthrow 0%nat ltac:(lia)) eq_refl).
  rewrite (Hstep _ 1%nat _ _ (Hthrow 1%nat ltac:(lia)) eq_refl).
  rewrite (Hstep _ 2%nat _ _ (Hthrow 2%nat ltac:(lia)) eq_refl).
  rewrite (Hstep _ 3%nat _ _ (Hthrow 3%nat ltac:(lia)) eq_refl).
  rewrite (Hstep _ 4%nat _ _ (Hthrow 4%nat ltac:(lia)) eq_refl).
  rewrite (Hstep _ 5%nat _ _ (Hthrow 5%nat ltac:(lia)) eq_refl).
  reflexivity.
Qed.

Lemma auth_error_fast_retry_witness :
  pollV2TaskStatus (scripted [] forbidden) None
  = (Rejected {| message := "认证失败，请重新登录: HTTP 403" |},
     [Fetch 0; Sleep 1000; Fetch 1; Sleep 1000; Fetch 2; Sleep 1000;
      Fetch 3; Sleep 1000; Fetch 4; Sleep 1000; Fetch 5])
  /\
  poll_from (scripted [] forbidden) 120 (S 0) 2
  = (Rejected (timeout_error 120), [Fetch 2; Sleep 1000]).
Proof.
  destruct (auth_error_fast_retry (scripted [] forbidden) None)
    as (Hstep & Hsix & _).
  split.
  - apply Hsix.
    + cbn. lia.
    + intros k _. exists (BadJson {| message := "" |}).
      destruct k as [| [| k]]; reflexivity.
  - apply (Hstep 0%nat 2%nat {| message := "HTTP 403" |} [Fetch 2]);
      reflexivity.
Defined.

(** C10. An attempt that fetches [completed] without a truthy [result]
    neither resolves nor rejects the poll: the answer falls through every
    branch to the unknown-status warning and the loop goes straight on to
    the next attempt, without any wait. The poll resolves only with the
    truthy [result] of an answer whose status is [completed]. *)
Theorem completed_without_result_is_skipped
    (env : nat -> FetchOutcome) (maxAttempts : option Z)
    (remaining attempt : nat) (http : Z) (r : TaskStatusResponse) :
  env attempt = Responds http (Json r) ->
  ok http = true ->
  status r = "completed"%string ->
  absent_or_falsy (result r) = true ->
  iteration attempt (default 120 maxAttempts) (env attempt)
    = (Normal, [Fetch attempt; WarnUnknownStatus "completed"]) /\
  poll_from env (default 120 maxAttempts) (S remaining) attempt
    = (fst (poll_from env (default 120 maxAttempts) remaining (S attempt)),
       [Fetch attempt; WarnUnknownStatus "completed"]
       ++ snd (poll_from env (default 120 maxAttempts) remaining (S attempt)))
  /\
  (forall v evs,
     pollV2TaskStatus env maxAttempts = (Resolved v, evs) ->
     exists k http' r',
       env k = Responds http' (Json r') /\ ok http' = true /\
       status r' = "completed"%string /\ result r' = Some v /\
       truthy v = true).
Proof.
  intros Henv Hok Hst Hres.
  assert (Hit : iteration attempt (default 120 maxAttempts) (env attempt)
                = (Normal, [Fetch attempt; WarnUnknownStatus "completed"])).
  { rewrite Henv. unfold iteration, try_block, getTaskStatus.
    rewrite Hok, Hst. cbn [negb isCompleted isFailed isCancelled isPending].
    replace (and_present (String.eqb "completed" "completed") (result r))
      with (@None JsValue).
    - reflexivity.
    - unfold absent_or_falsy in Hres. cbn.
      destruct (result r) as [v |]; [| reflexivity].
      destruct (truthy v); [discriminate | reflexivity]. }
  split; [exact Hit |]. split.
  - rewrite poll_from_S, Hit.
    destruct (poll_from env (default 120 maxAttempts) remaining (S attempt));
      reflexivity.
  - intros v evs Hrun. unfold pollV2TaskStatus in Hrun.
    destruct (poll_from_resolved _ _ _ _ _ _ Hrun)
      as (k & http' & r' & _ & Hrest).
    exists k, http', r'. exact Hrest.
Qed.

Lemma completed_without_result_is_skipped_witness :
  pollV2TaskStatus
    (scripted [answers "completed" None None;
               answers "completed" (Some (JsString "")) None]
       (completed (JsNumber 7)))
    (Some 5)
  = (Resolved (JsNumber 7),
     [Fetch 0; WarnUnknownStatus "completed";
      Fetch 1; WarnUnknownStatus "completed"; Fetch 2]).
Proof.
  pose (env := scripted [answers "completed" None None;
                         answers "completed" (Some (JsString "")) None]
                 (completed (JsNumber 7))).
  destruct (completed_without_result_is_skipped env (Some 5) 4 0 200
              {| status := "completed"; result := None; error := None |}
              eq_refl eq_refl eq_refl eq_refl) as (_ & H0 & _).
  destruct (completed_without_result_is_skipped env (Some 5) 3 1 200
              {| status := "completed"; result := Some (JsString "");
                 error := None |}
              eq_refl eq_refl eq_refl eq_refl) as (_ & H1 & _).
  unfold pollV2TaskStatus. change (Z.to_nat (default 120 (Some 5))) with 5%nat.
  fold env. rewrite H0, H1. reflexivity.
Defined.

End PollerSpec.

(** * Properties of the subscription manager *)
Module ChannelsSpec.
Import Channels.

Lemma create_existing channelName t throws w existing :
  activeChannels w !! channelName = Some existing ->
  create channelName t throws w = (Some existing, w).
Proof. intros H. unfold create. rewrite H. reflexivity. Qed.

Lemma create_fresh channelName t w :
  activeChannels w !! channelName = None ->
  exists channel w',
    create channelName t false w = (Some channel, w') /\
    name channel = channelName /\ topic channel = t /\
    activeChannels w' = <[channelName := channel]> (activeChannels w) /\
    subscriptions w' = subscriptions w ++ [channel].
Proof.
  intros H. unfold create. rewrite H.
  eexists _, _. repeat split.
Qed.

Lemma create_throws channelName t w :
  activeChannels w !! channelName = None ->
  create channelName t true w = (None, w).
Proof. intros H. unfold create. rewrite H. reflexivity. Qed.

(** A handle that [create] returns is the one stored under the name. *)
Lemma create_stores channelName t throws w channel w' :
  create channelName t throws w = (Some channel, w') ->
  activeChannels w' !! channelName = Some channel.
Proof.
  unfold create. destruct (activeChannels w !! channelName) as [c |] eqn:H.
  - intros [= <- <-]. exact H.
  - destruct throws; [discriminate |]. intros [= <- <-].
    cbn [activeChannels]. apply lookup_insert_eq.
Qed.

(** [create] opens a transport subscription only for a name that is not
    in the map. *)
Lemma create_opens_only_when_absent channelName t throws w :
  subscriptions (snd (create channelName t throws w)) <> subscriptions w ->
  activeChannels w !! channelName = None.
Proof.
  unfold create. destruct (activeChannels w !! channelName); [| reflexivity].
  cbn [snd]. congruence.
Qed.

(** C5. For both [createChannel] and [createTranscriptionChannel]: when the
    map already holds a handle for the name, the call returns that handle
    and changes nothing, so no transport subscription is opened; a
    subscription is opened only for a name that is not in the map, and it
    is then stored under that name; two calls in a row for one name return
    the same handle, the second one opening nothing. *)
Theorem subscribe_is_idempotent
    (channelName userId : string) (ids : list string) (w : World)
    (mk : bool -> World -> option Channel * World) :
  mk = createChannel channelName userId \/
  mk = createTranscriptionChannel channelName ids ->
  (forall existing throws,
     activeChannels w !! channelName = Some existing ->
     mk throws w = (Some existing, w)) /\
  (activeChannels w !! channelName = None ->
   exists channel w',
     mk false w = (Some channel, w') /\
     activeChannels w' = <[channelName := channel]> (activeChannels w) /\
     subscriptions w' = subscriptions w ++ [channel]) /\
  (forall throws,
     subscriptions (snd (mk throws w)) <> subscriptions w ->
     activeChannels w !! channelName = None) /\
  (forall throws throws' channel w',
     mk throws w = (Some channel, w') ->
     mk throws' w' = (Some channel, w')).
Proof.
  intros [-> | ->]; unfold createChannel, createTranscriptionChannel.
  all: repeat apply conj.
  all: first
    [ intros existing throws H; exact (create_existing _ _ _ _ _ H)
    | intros throws throws' channel w' H;
      exact (create_existing _ _ _ _ _ (create_stores _ _ _ _ _ _ H))
    | intros throws H; exact (create_opens_only_when_absent _ _ _ _ H)
    | intros H;
      match goal with
      | |- context [create _ ?t false _] =>
          destruct (create_fresh channelName t w H)
            as (c & w' & Hc & _ & _ & Hm & Hs)
      end;
      exists c, w'; auto ].
Qed.

Lemma subscribe_is_idempotent_witness :
  createChannel "sessions-u1" "u1" false empty_world
    = (Some first_channel, one_channel_world) /\
  createChannel "sessions-u1" "u1" false one_channel_world
    = (Some first_channel, one_channel_world).
Proof.
  assert (H1 : createChannel "sessions-u1" "u1" false empty_world
               = (Some first_channel, one_channel_world)).
  { unfold createChannel, create, empty_world, one_channel_world.
    cbn [activeChannels subscriptions unsubscribed].
    rewrite lookup_empty. reflexivity. }
  split; [exact H1 |].
  destruct (subscribe_is_idempotent "sessions-u1" "u1" [] empty_world
              (createChannel "sessions-u1" "u1") (or_introl eq_refl))
    as (_ & _ & _ & Htwice).
  exact (Htwice false false _ _ H1).
Defined.

(** C6. [removeChannel] on a name that is in the map deletes the entry,
    so that [hasChannel] answers [false] afterwards, whether
    [channel.unsubscribe()] went through or threw. *)
Theorem removeChannel_always_removes
    (channelName : string) (throws : bool) (w : World) :
  is_Some (activeChannels w !! channelName) ->
  hasChannel channelName (removeChannel channelName throws w) = false /\
  activeChannels (removeChannel channelName throws w)
    = delete channelName (activeChannels w).
Proof.
  intros [channel H]. unfold hasChannel, removeChannel. rewrite H.
  destruct throws; cbn [activeChannels]; (split; [| reflexivity]);
    apply bool_decide_eq_false_2; rewrite lookup_delete_eq;
    apply is_Some_None.
Qed.

Lemma removeChannel_always_removes_witness :
  hasChannel "sessions-u1" (removeChannel "sessions-u1" true one_channel_world)
    = false /\
  hasChannel "sessions-u1" (removeChannel "sessions-u1" false one_channel_world)
    = false.
Proof.
  assert (Hin : is_Some (activeChannels one_channel_world !! "sessions-u1"%string)).
  { exists first_channel. apply lookup_singleton_eq. }
  split.
  - exact (proj1 (removeChannel_always_removes "sessions-u1" true _ Hin)).
  - exact (proj1 (removeChannel_always_removes "sessions-u1" false _ Hin)).
Defined.

End ChannelsSpec.

(** * Properties of the retranscription tracking *)
Module RetranscribeSpec.
Import Retranscribe.

Lemma differs_false_iff (a b : Signature) :
  differs a b = false <->
  id a = id b /\ contentLength a = contentLength b /\
  segmentsLength a = segmentsLength b.
Proof.
  unfold differs. rewrite !orb_false_iff, !negb_false_iff.
  rewrite bool_decide_eq_true, !Nat.eqb_eq. tauto.
Qed.

Lemma differs_true_iff (a b : Signature) :
  differs a b = true <->
  id a <> id b \/ contentLength a <> contentLength b \/
  segmentsLength a <> segmentsLength b.
Proof.
  unfold differs. rewrite !orb_true_iff, !negb_true_iff.
  rewrite bool_decide_eq_false, !Nat.eqb_neq. tauto.
Qed.

Lemma eqb_empty_false (s : string) : s <> ""%string -> String.eqb s "" = false.
Proof. intros H. apply String.eqb_neq. exact H. Qed.

(** The effect when the selected session is found, by its status. *)
Lemma completionEffect_found sel sessions st s :
  sel <> ""%string ->
  findSession sel sessions = Some s ->
  completionEffect sel sessions st =
    (if String.eqb (status s) "processing" && isRetranscribing st
        && negb (hasSeenProcessing st)
     then [SetHasSeenProcessing true] else [])
    ++
    (if isRetranscribing st && hasSeenProcessing st
        && String.eqb (status s) "completed"
     then [SetIsRetranscribing false; SetHasSeenProcessing false;
           completedToast]
     else [])
    ++
    (if isRetranscribing st && String.eqb (status s) "completed" then
       match retranscribeBaseline st with
       | Some baseline =>
           if differs (signatureOf s) baseline then
             [SetIsRetranscribing false; SetHasSeenProcessing false;
              SetRetranscribeBaseline None; completedToast]
           else []
       | None => []
       end
     else [])
    ++
    (if negb (String.eqb (status s) "completed")
        && negb (String.eqb (status s) "processing")
     then [SetIsRetranscribing false; SetHasSeenProcessing false;
           SetRetranscribeBaseline None]
     else []).
Proof.
  intros Hsel Hfind. unfold completionEffect.
  rewrite (eqb_empty_false _ Hsel), Hfind. reflexivity.
Qed.

(** C3. While a retranscription is tracked and a baseline is recorded, a
    refresh that shows the selected session [completed] with a signature
    that differs from the baseline in its id, its content length or its
    segment count ends the tracking with success, whether or not
    [processing] was ever seen: the in-flight flag is cleared, the baseline
    is dropped and the success toast is shown. Two signatures count as
    equal exactly when all three fields agree. *)
Theorem signature_change_completes
    (sel : string) (sessions : list Session) (st : TrackState)
    (s : Session) (baseline : Signature) :
  sel <> ""%string ->
  findSession sel sessions = Some s ->
  status s = "completed"%string ->
  isRetranscribing st = true ->
  retranscribeBaseline st = Some baseline ->
  id (signatureOf s) <> id baseline \/
  contentLength (signatureOf s) <> contentLength baseline \/
  segmentsLength (signatureOf s) <> segmentsLength baseline ->
  let st' := refresh sel sessions st in
  isRetranscribing st' = false /\
  hasSeenProcessing st' = false /\
  retranscribeBaseline st' = None /\
  In completedToast (completionEffect sel sessions st) /\
  (forall a b : Signature,
     differs a b = false <->
     id a = id b /\ contentLength a = contentLength b /\
     segmentsLength a = segmentsLength b).
Proof.
  intros Hsel Hfind Hst Hretr Hbase Hdiff st'. subst st'. unfold refresh.
  rewrite (completionEffect_found _ _ _ _ Hsel Hfind), Hst, Hretr, Hbase.
  apply differs_true_iff in Hdiff. rewrite Hdiff.
  cbn [String.eqb Ascii.eqb Bool.eqb andb negb].
  split; [| split; [| split; [| split]]];
    try (destruct (hasSeenProcessing st); reflexivity).
  - destruct (hasSeenProcessing st); cbn; auto 10.
  - exact differs_false_iff.
Qed.

Lemma signature_change_completes_witness :
  signatureOf (session_s1 "completed")
    = {| id := Some "t1"%string; contentLength := 42; segmentsLength := 3 |} /\
  isRetranscribing (refresh "s1" [session_s1 "completed"] tracking_t1) = false /\
  retranscribeBaseline (refresh "s1" [session_s1 "completed"] tracking_t1)
    = None.
Proof.
  split; [reflexivity |].
  destruct (signature_change_completes "s1" [session_s1 "completed"]
              tracking_t1 (session_s1 "completed")
              {| id := Some "t1"%string; contentLength := 0;
                 segmentsLength := 0 |})
    as (Hflag & _ & Hbase & _); try reflexivity.
  - discriminate.
  - right. left. cbn. lia.
  - split; [exact Hflag | exact Hbase].
Defined.

(** C4. While a retranscription is tracked, a refresh that shows the
    selected session [processing] records that the intermediate state was
    seen and keeps the job in flight; a later refresh that shows it
    [completed] then ends the tracking with success: the in-flight flag is
    cleared, the intermediate-state flag is reset and the success toast is
    shown. *)
Theorem processing_then_completed
    (sel : string) (during after : list Session) (st : TrackState)
    (s1 s2 : Session) :
  sel <> ""%string ->
  isRetranscribing st = true ->
  findSession sel during = Some s1 ->
  status s1 = "processing"%string ->
  findSession sel after = Some s2 ->
  status s2 = "completed"%string ->
  let st1 := refresh sel during st in
  let st2 := refresh sel after st1 in
  isRetranscribing st1 = true /\
  hasSeenProcessing st1 = true /\
  isRetranscribing st2 = false /\
  hasSeenProcessing st2 = false /\
  In completedToast (completionEffect sel after st1).
Proof.
  intros Hsel Hretr Hf1 Hs1 Hf2 Hs2 st1 st2.
  assert (H1 : isRetranscribing st1 = true /\ hasSeenProcessing st1 = true).
  { subst st1. unfold refresh.
    rewrite (completionEffect_found _ _ _ _ Hsel Hf1), Hs1, Hretr.
    cbn [String.eqb Ascii.eqb Bool.eqb andb negb].
    rewrite andb_false_r. destruct (hasSeenProcessing st) eqn:Hseen;
      cbn; auto. }
  destruct H1 as [Hr1 Hp1]. split; [exact Hr1 |]. split; [exact Hp1 |].
  subst st2. unfold refresh.
  rewrite (completionEffect_found _ _ _ _ Hsel Hf2), Hs2, Hr1, Hp1.
  cbn [String.eqb Ascii.eqb Bool.eqb andb negb app].
  destruct (retranscribeBaseline st1) as [baseline |];
    [destruct (differs (signatureOf s2) baseline) |]; cbn;
    repeat split; auto.
Qed.

Lemma processing_then_completed_witness :
  let st1 := refresh "s1" [session_s1 "processing"] tracking_t1 in
  let st2 := refresh "s1" [session_s1 "completed"] st1 in
  hasSeenProcessing st1 = true /\ isRetranscribing st2 = false /\
  hasSeenProcessing st2 = false.
Proof.
  destruct (processing_then_completed "s1" [session_s1 "processing"]
              [session_s1 "completed"] tracking_t1
              (session_s1 "processing") (session_s1 "completed"))
    as (_ & Hp1 & Hr2 & Hp2 & _); try reflexivity.
  - discriminate.
  - cbn zeta. auto.
Defined.

(** C8. A refresh that shows the selected session with a status other than
    [processing] and [completed] puts the tracking back to idle: the
    in-flight flag, the intermediate-state flag and the baseline are all
    reset, these are the only updates, and no success is signalled. *)
Theorem other_status_resets_tracking
    (sel : string) (sessions : list Session) (st : TrackState) (s : Session) :
  sel <> ""%string ->
  findSession sel sessions = Some s ->
  status s <> "processing"%string ->
  status s <> "completed"%string ->
  completionEffect sel sessions st
    = [SetIsRetranscribing false; SetHasSeenProcessing false;
       SetRetranscribeBaseline None] /\
  isRetranscribing (refresh sel sessions st) = false /\
  hasSeenProcessing (refresh sel sessions st) = false /\
  retranscribeBaseline (refresh sel sessions st) = None /\
  ~ In completedToast (completionEffect sel sessions st).
Proof.
  intros Hsel Hfind Hnp Hnc.
  assert (Heff : completionEffect sel sessions st
                 = [SetIsRetranscribing false; SetHasSeenProcessing false;
                    SetRetranscribeBaseline None]).
  { rewrite (completionEffect_found _ _ _ _ Hsel Hfind).
    apply String.eqb_neq in Hnp, Hnc. rewrite Hnp, Hnc.
    rewrite !andb_false_r. reflexivity. }
  unfold refresh. rewrite Heff. repeat split.
  cbn. intros [H | [H | [H | []]]]; discriminate.
Qed.

Lemma other_status_resets_tracking_witness :
  refresh "s1" [session_s1 "failed"] tracking_t1 = idle.
Proof.
  destruct (other_status_resets_tracking "s1" [session_s1 "failed"]
              tracking_t1 (session_s1 "failed"))
    as (Heff & _); [discriminate | reflexivity | discriminate | discriminate |].
  unfold refresh. rewrite Heff. reflexivity.
Defined.

(** One run of [fallbackCheck] while the job is in flight. *)
Lemma fallbackCheck_tracking sid startTs now sessions :
  fallbackCheck sid startTs now true sessions =
    if sessionCompleted sid sessions then (Success, closeOverlay)
    else if now - startTs >? 4000 then (Timeout, closeOverlay)
    else (Rearm 300, []).
Proof. reflexivity. Qed.

Lemma commit_closeOverlay st :
  isRetranscribing (commit st closeOverlay) = false.
Proof. reflexivity. Qed.


(** The [k]-th run comes no sooner than its timers allow. *)
Lemma runTime_after startTs ticks k :
  400 + 300 * Z.of_nat k <= runTime startTs ticks k - startTs.
Proof.
  induction k as [| k IH]; cbn [runTime]; lia.
Qed.

Lemma seenAt_alone others st k :
  (forall i s, others i s = s) -> seenAt others st k = st.
Proof.
  intros Hid. induction k as [| k IH]; cbn [seenAt]; rewrite Hid; auto.
Qed.

(** The chain of timers ends whatever the other writers do: a run that
    re-arms the timer has read a clock at most 4000 ms after arming, which
    the fourteenth run cannot. *)
Lemma fallbackChain_ends sid startTs ticks others st0 : forall fuel k due st,
  (k <= 13)%nat -> (14 <= k + fuel)%nat ->
  due + Z.of_nat (lateness (ticks k)) = runTime startTs ticks k ->
  others k st = seenAt others st0 k ->
  exists k' v st',
    fallbackChain sid startTs ticks others fuel k due st = Some (k', v, st') /\
    (k <= k' <= 13)%nat /\
    isRetranscribing st' = false /\
    (forall j, (k <= j < k')%nat ->
       isRetranscribing (seenAt others st0 j) = true /\
       sessionCompleted sid (sessionsRef (ticks j)) = false /\
       runTime startTs ticks j - startTs <= 4000) /\
    (v = NotTracking /\
       isRetranscribing (seenAt others st0 k') = false /\
       st' = seenAt others st0 k' \/
     v = Success /\
       isRetranscribing (seenAt others st0 k') = true /\
       sessionCompleted sid (sessionsRef (ticks k')) = true /\
       st' = commit (seenAt others st0 k') closeOverlay \/
     v = Timeout /\
       isRetranscribing (seenAt others st0 k') = true /\
       sessionCompleted sid (sessionsRef (ticks k')) = false /\
       4000 < runTime startTs ticks k' - startTs /\
       st' = commit (seenAt others st0 k') closeOverlay).
Proof.
  induction fuel as [| fuel IH]; intros k due st Hk Hfuel Hdue Hseen; [lia |].
  cbn [fallbackChain]. cbn zeta. rewrite Hseen, Hdue.
  destruct (isRetranscribing (seenAt others st0 k)) eqn:Hflag.
  - rewrite fallbackCheck_tracking.
    destruct (sessionCompleted sid (sessionsRef (ticks k))) eqn:Hdone.
    + exists k, Success, (commit (seenAt others st0 k) closeOverlay).
      split; [reflexivity |]. split; [lia |]. split; [reflexivity |].
      split; [intros j Hj; lia |]. right. left. auto.
    + destruct (runTime startTs ticks k - startTs >? 4000) eqn:Hlate.
      * exists k, Timeout, (commit (seenAt others st0 k) closeOverlay).
        split; [reflexivity |]. split; [lia |]. split; [reflexivity |].
        split; [intros j Hj; lia |]. right. right.
        apply Z.gtb_lt in Hlate. repeat split; auto.
      * rewrite Z.gtb_ltb in Hlate. apply Z.ltb_ge in Hlate.
        pose proof (runTime_after startTs ticks k) as Hafter.
        destruct (IH (S k) (runTime startTs ticks k + 300)
                    (commit (seenAt others st0 k) []))
          as (k' & v & st' & Hrun & Hk' & Hoff & Hbefore & Hlast);
          [lia | lia | reflexivity | reflexivity |].
        exists k', v, st'. rewrite Hrun.
        split; [reflexivity |]. split; [lia |]. split; [exact Hoff |].
        split; [| exact Hlast].
        intros j Hj. destruct (Nat.eq_dec j k) as [-> | Hne]; [auto |].
        apply Hbefore. lia.
  - exists k, NotTracking, (seenAt others st0 k).
    split; [reflexivity |]. split; [lia |]. split; [exact Hflag |].
    split; [intros j Hj; lia |]. left. auto.
Qed.

(** The chain without other writers is the chain of [armFallback]. *)
Lemma fallbackChain_alone sid startTs ticks : forall fuel k due st,
  (fun r : nat * Verdict * TrackState => (snd (fst r), snd r))
    <$> fallbackChain sid startTs ticks nobody fuel k due st
  = fallbackLoop sid startTs ticks fuel k due st.
Proof.
  induction fuel as [| fuel IH]; intros k due st; [reflexivity |].
  cbn [fallbackChain fallbackLoop]. cbn zeta.
  change (nobody k st) with st.
  destruct (fallbackCheck sid startTs (due + Z.of_nat (lateness (ticks k)))
              (isRetranscribing st) (sessionsRef (ticks k)))
    as [[| | | delay] acts]; try reflexivity.
  apply IH.
Qed.

(** C9 does not hold with a timeout "once 4000 ms have elapsed". With
    timers on time and a session that stays in [processing], the run that
    comes exactly 4000 ms after arming (the thirteenth) finds the test
    [Date.now() - startTs > 4000] false and re-arms the timer: after
    thirteen runs the job is still in flight. It is ended by the
    fourteenth run, 4300 ms after arming. *)
Lemma fallback_still_armed_at_4000_ms :
  runTime 0 punctual_ticks 12 - 0 = 4000 /\
  fallbackCheck "s1" 0 (runTime 0 punctual_ticks 12) true
    (sessionsRef (punctual_ticks 12%nat))
  = (Rearm 300, []) /\
  armFallbackChain "s1" 0 punctual_ticks nobody 13 tracking_t1 = None /\
  armFallbackChain "s1" 0 punctual_ticks nobody 14 tracking_t1
  = Some (13%nat, Timeout, commit tracking_t1 closeOverlay) /\
  runTime 0 punctual_ticks 13 - 0 = 4300.
Proof. repeat split; reflexivity. Qed.

(** C9, amended. The fallback timer that [handleRetranscribe] arms once
    its request and its session refresh have returned ends within 14 runs
    of [fallbackCheck], whatever the other writers do to the tracking
    cells in between, and leaves the in-flight flag [false]. Time is
    counted from [startTs], read at arming, and the [k]-th run comes at
    least [400 + 300 k] ms later. Every run before the last found the job
    in flight, the session of [sessionsRef] not [completed] and at most
    4000 ms gone. The last run either finds the flag already [false] and
    writes nothing, or ends the job as success because the session of
    [sessionsRef] is [completed], or ends it as timeout because strictly
    more than 4000 ms have gone; it comes at most [4300 + L] ms after
    arming when no timer is more than [L] ms late. When nobody else writes
    the cells, a job in flight ends as success or as timeout. *)
Theorem fallback_timer_ends_tracking
    (sid : string) (startTs : Z) (ticks : nat -> Tick)
    (others : nat -> TrackState -> TrackState) (fuel : nat)
    (st : TrackState) :
  (14 <= fuel)%nat ->
  exists k v st',
    armFallbackChain sid startTs ticks others fuel st = Some (k, v, st') /\
    (k <= 13)%nat /\
    isRetranscribing st' = false /\
    400 + 300 * Z.of_nat k <= runTime startTs ticks k - startTs /\
    (forall j, (j < k)%nat ->
       isRetranscribing (seenAt others st j) = true /\
       sessionCompleted sid (sessionsRef (ticks j)) = false /\
       runTime startTs ticks j - startTs <= 4000) /\
    (v = NotTracking /\
       isRetranscribing (seenAt others st k) = false /\
       st' = seenAt others st k \/
     v = Success /\
       isRetranscribing (seenAt others st k) = true /\
       sessionCompleted sid (sessionsRef (ticks k)) = true /\
       st' = commit (seenAt others st k) closeOverlay \/
     v = Timeout /\
       isRetranscribing (seenAt others st k) = true /\
       sessionCompleted sid (sessionsRef (ticks k)) = false /\
       4000 < runTime startTs ticks k - startTs /\
       st' = commit (seenAt others st k) closeOverlay) /\
    (forall L, (forall i, (lateness (ticks i) <= L)%nat) ->
       runTime startTs ticks k - startTs <= 4300 + Z.of_nat L) /\
    ((forall i s, others i s = s) -> isRetranscribing st = true ->
     (v = Success \/ v = Timeout) /\ st' = commit st closeOverlay).
Proof.
  intros Hfuel. unfold armFallbackChain.
  destruct (fallbackChain_ends sid startTs ticks others st fuel 0%nat
              (startTs + 400) st)
    as (k & v & st' & Hrun & Hk & Hoff & Hbefore & Hlast);
    [lia | lia | reflexivity | reflexivity |].
  exists k, v, st'.
  split; [exact Hrun |]. split; [lia |]. split; [exact Hoff |].
  split; [apply runTime_after |].
  split; [intros j Hj; apply Hbefore; lia |].
  split; [exact Hlast |]. split.
  - intros L HL. destruct k as [| k].
    + cbn [runTime]. specialize (HL 0%nat). lia.
    + destruct (Hbefore k) as (_ & _ & Hgone); [lia |].
      cbn [runTime]. specialize (HL (S k)). lia.
  - intros Hid Hon. rewrite (seenAt_alone others st k Hid) in Hlast.
    destruct Hlast as [(_ & Hflag & _) | [(-> & _ & _ & ->) | (-> & _ & _ & _ & ->)]];
      [congruence | auto | auto].
Qed.

Lemma fallback_timer_ends_tracking_witness :
  (armFallbackChain "s1" 0 completing_ticks nobody 14 tracking_t1
   = Some (2%nat, Success, commit tracking_t1 closeOverlay) /\
   runTime 0 completing_ticks 2 - 0 = 1060) /\
  (armFallbackChain "s1" 1000 punctual_ticks nobody 14 tracking_t1
   = Some (13%nat, Timeout, commit tracking_t1 closeOverlay) /\
   runTime 1000 punctual_ticks 13 - 1000 = 4300) /\
  (exists st',
     armFallbackChain "s1" 0 completing_ticks
       (effect_first "s1" completing_ticks) 14 tracking_t1
     = Some (2%nat, NotTracking, st') /\
     isRetranscribing st' = false /\
     forceHideRetranscribeOverlay st' = false).
Proof.
  split; [| split].
  - destruct (fallback_timer_ends_tracking "s1" 0 completing_ticks nobody 14
                tracking_t1 ltac:(lia))
      as (k & v & st' & Hrun & _ & _ & _ & _ & _ & _ & Halone).
    destruct (Halone (fun _ _ => eq_refl) eq_refl) as [_ ->].
    split; [| reflexivity]. rewrite Hrun.
    assert (Hsame : armFallbackChain "s1" 0 completing_ticks nobody 14
                      tracking_t1
                    = Some (2%nat, Success, commit tracking_t1 closeOverlay))
      by reflexivity.
    rewrite Hrun in Hsame. exact Hsame.
  - destruct (fallback_timer_ends_tracking "s1" 1000 punctual_ticks nobody 14
                tracking_t1 ltac:(lia))
      as (k & v & st' & Hrun & _ & _ & _ & _ & _ & _ & Halone).
    destruct (Halone (fun _ _ => eq_refl) eq_refl) as [_ ->].
    split; [| reflexivity]. rewrite Hrun.
    assert (Hsame : armFallbackChain "s1" 1000 punctual_ticks nobody 14
                      tracking_t1
                    = Some (13%nat, Timeout, commit tracking_t1 closeOverlay))
      by reflexivity.
    rewrite Hrun in Hsame. exact Hsame.
  - destruct (fallback_timer_ends_tracking "s1" 0 completing_ticks
                (effect_first "s1" completing_ticks) 14 tracking_t1
                ltac:(lia))
      as (k & v & st' & Hrun & _ & Hoff & _).
    assert (Hsame : exists st'',
               armFallbackChain "s1" 0 completing_ticks
                 (effect_first "s1" completing_ticks) 14 tracking_t1
               = Some (2%nat, NotTracking, st'') /\
               forceHideRetranscribeOverlay st'' = false)
      by (eexists; split; reflexivity).
    destruct Hsame as (st'' & Hrun' & Hhide).
    rewrite Hrun in Hrun'. injection Hrun' as -> -> ->.
    exists st''. split; [exact Hrun |]. split; [exact Hoff | exact Hhide].
Defined.

End RetranscribeSpec.

(** * Further properties of the poller *)
Module PollerExtra.
Import Poller PollerSpec.

(** Every error of the [try] block is raised right after the status
    request, before any wait. *)
Lemma try_block_throw_events attempt o e evs :
  try_block attempt o = (Throw e, evs) -> evs = [Fetch attempt].
Proof.
  unfold try_block. repeat case_match; intros [= <- <-]; reflexivity.
Qed.

(** What the [try] block throws, and for which answers. *)
Lemma try_block_throws attempt o e evs :
  try_block attempt o = (Throw e, evs) ->
  o = FetchRejects e \/
  (exists http body,
     o = Responds http body /\ ok http = false /\
     e = {| message := "HTTP " +:+ show_int http |}) \/
  (exists http, o = Responds http (BadJson e) /\ ok http = true) \/
  (exists http r,
     o = Responds http (Json r) /\ ok http = true /\
     status r = "failed"%string /\ e = {| message := failure_message r |}) \/
  (exists http r,
     o = Responds http (Json r) /\ ok http = true /\
     status r = "cancelled"%string /\ e = {| message := "任务被取消" |}).
Proof.
  unfold try_block. destruct o as [e0 | http [e0 | r]].
  - intros [= <- _]. auto.
  - destruct (ok http) eqn:Hok; cbn [negb]; intros [= <- _].
    + right. right. left. eauto.
    + right. left. eauto.
  - destruct (ok http) eqn:Hok; cbn [negb].
    + destruct (and_present _ _); [discriminate |].
      unfold getTaskStatus. cbn [isFailed isCancelled isPending].
      destruct (String.eqb_spec (status r) "failed") as [Hf | _].
      * intros [= <- _]. do 3 right. left. eauto 10.
      * destruct (String.eqb_spec (status r) "cancelled") as [Hc | _].
        -- intros [= <- _]. do 4 right. eauto 10.
        -- case_match; discriminate.
    + intros [= <- _]. right. left. eauto.
Qed.

(** What the [catch] block makes of an error without "403". *)
Lemma iteration_other_error attempt maxAttempts o e evs :
  try_block attempt o = (Throw e, evs) ->
  includes "403" (message e) = false ->
  iteration attempt maxAttempts o =
    if maxAttempts - 3 <=? Z.of_nat attempt
    then (Throw e, [Fetch attempt])
    else (Normal, [Fetch attempt; Sleep 3000]).
Proof.
  intros Htry H403.
  pose proof (try_block_throw_events _ _ _ _ Htry) as ->.
  unfold iteration. rewrite Htry. unfold catch_block. rewrite H403.
  destruct (maxAttempts - 3 <=? Z.of_nat attempt); reflexivity.
Qed.

(** X1. An error caught in the loop whose message does not contain "403"
    is rethrown unchanged when the loop index is at least
    [maxAttempts - 3]; at any earlier index the poll waits 3000 ms and
    makes the next attempt. This holds for whatever the [try] block
    throws: a rejected fetch, a body that does not parse, a non-2xx
    status, and the errors it raises itself for a failed or a cancelled
    task. *)
Theorem other_errors_are_retried_until_the_last_three
    (env : nat -> FetchOutcome) (maxAttempts : Z)
    (remaining attempt : nat) (e : Error) (evs : list Event) :
  try_block attempt (env attempt) = (Throw e, evs) ->
  includes "403" (message e) = false ->
  poll_from env maxAttempts (S remaining) attempt =
    if maxAttempts - 3 <=? Z.of_nat attempt
    then (Rejected e, [Fetch attempt])
    else (fst (poll_from env maxAttempts remaining (S attempt)),
          [Fetch attempt; Sleep 3000]
          ++ snd (poll_from env maxAttempts remaining (S attempt))).
Proof.
  intros Htry H403. rewrite poll_from_S.
  rewrite (iteration_other_error _ maxAttempts _ _ _ Htry H403).
  destruct (maxAttempts - 3 <=? Z.of_nat attempt); [reflexivity |].
  destruct (poll_from env maxAttempts remaining (S attempt)); reflexivity.
Qed.

Lemma other_errors_are_retried_until_the_last_three_witness :
  pollV2TaskStatus
    (scripted [answers "cancelled" None None; Responds 500 (BadJson {| message := "" |})]
       (FetchRejects {| message := "Failed to fetch" |}))
    (Some 4)
  = (Rejected {| message := "HTTP 500" |},
     [Fetch 0; Sleep 3000; Fetch 1]).
Proof.
  pose (env := scripted [answers "cancelled" None None;
                         Responds 500 (BadJson {| message := "" |})]
                 (FetchRejects {| message := "Failed to fetch" |})).
  unfold pollV2TaskStatus. change (Z.to_nat (default 120 (Some 4))) with 4%nat.
  change (default 120 (Some 4)) with 4. fold env.
  rewrite (other_errors_are_retried_until_the_last_three env 4 3 0
             {| message := "任务被取消" |} [Fetch 0] eq_refl eq_refl).
  rewrite (other_errors_are_retried_until_the_last_three env 4 2 1
             {| message := "HTTP 500" |} [Fetch 1] eq_refl eq_refl).
  reflexivity.
Defined.

(** One iteration makes exactly one status request. *)
Lemma iteration_attempts attempt maxAttempts o :
  attempts (snd (iteration attempt maxAttempts o)) = [attempt].
Proof.
  unfold iteration, try_block, catch_block.
  repeat case_match; simplify_eq; reflexivity.
Qed.

Section Bounds.

Variable env : nat -> FetchOutcome.
Variable maxAttempts : Z.

Lemma poll_from_bounds remaining : forall attempt,
  let evs := snd (poll_from env maxAttempts remaining attempt) in
  exists n,
    (n <= remaining)%nat /\
    attempts evs = seq attempt n /\
    (length (sleeps evs) <= n)%nat /\
    Forall (fun ms => ms = 1000 \/ ms = 3000) (sleeps evs).
Proof.
  induction remaining as [| remaining IH]; intros attempt; cbn zeta.
  - exists 0%nat. cbn. split; [lia |]. split; [reflexivity |].
    split; [lia | constructor].
  - rewrite poll_from_S.
    pose proof (iteration_attempts attempt maxAttempts (env attempt)) as Hatt.
    pose proof (iteration_sleeps attempt maxAttempts (env attempt)) as Hsl.
    destruct (iteration attempt maxAttempts (env attempt)) as [c evs0].
    cbn [snd] in Hatt, Hsl.
    assert (Hone : (length (sleeps evs0) <= 1)%nat /\
                   Forall (fun ms => ms = 1000 \/ ms = 3000) (sleeps evs0)).
    { destruct Hsl as [-> | [-> | [-> _]]]; cbn; (split; [lia |]);
        [ constructor
        | constructor; [right; reflexivity | constructor]
        | constructor; [left; reflexivity | constructor] ]. }
    destruct Hone as [Hlen Hall].
    destruct c as [v | e | |].
    1, 2: exists 1%nat; cbn [snd]; rewrite Hatt;
      (split; [lia |]); (split; [reflexivity |]);
      (split; [lia | exact Hall]).
    all: destruct (IH (S attempt)) as (n & Hn & Hatt' & Hlen' & Hall');
      destruct (poll_from env maxAttempts remaining (S attempt))
        as [out evs1];
      cbn [snd] in *; exists (S n);
      rewrite attempts_app, sleeps_app, Hatt, Hatt', length_app;
      (split; [lia |]); (split; [reflexivity |]);
      (split; [lia | apply Forall_app; auto]).
Qed.

(** A rejection of the loop is the final timeout, an auth error made of
    a caught error with "403" at a loop index from 5 on, or some other
    caught error at one of the last three indexes. *)
Lemma poll_from_rejected remaining : forall attempt e evs,
  poll_from env maxAttempts remaining attempt = (Rejected e, evs) ->
  e = timeout_error maxAttempts \/
  exists k e0 evs0,
    (attempt <= k < attempt + remaining)%nat /\
    try_block k (env k) = (Throw e0, evs0) /\
    (includes "403" (message e0) = true /\ (5 <= k)%nat /\
     e = auth_error e0 \/
     includes "403" (message e0) = false /\
     maxAttempts - 3 <= Z.of_nat k /\ e = e0).
Proof.
  induction remaining as [| remaining IH]; intros attempt e evs.
  - intros [= <- _]. left. reflexivity.
  - rewrite poll_from_S. unfold iteration.
    destruct (try_block attempt (env attempt)) as [c evs0] eqn:Htry.
    assert (Hnext : forall evs1,
              (let '(out, evs') :=
                 poll_from env maxAttempts remaining (S attempt) in
               (out, evs1 ++ evs')) = (Rejected e, evs) ->
              e = timeout_error maxAttempts \/
              exists k e0 evs0,
                (attempt <= k < attempt + S remaining)%nat /\
                try_block k (env k) = (Throw e0, evs0) /\
                (includes "403" (message e0) = true /\ (5 <= k)%nat /\
                 e = auth_error e0 \/
                 includes "403" (message e0) = false /\
                 maxAttempts - 3 <= Z.of_nat k /\ e = e0)).
    { intros evs1.
      destruct (poll_from env maxAttempts remaining (S attempt))
        as [out evs'] eqn:Hrec.
      intros [= -> _]. destruct (IH _ _ _ Hrec) as [-> | (k & e0 & ev & Hk & H)];
        [left; reflexivity |].
      right. exists k, e0, ev. split; [lia | exact H]. }
    destruct c as [v | e0 | |]; try discriminate; try apply Hnext.
    unfold catch_block.
    destruct (includes "403" (message e0)) eqn:H403.
    + destruct (5 <=? Z.of_nat attempt) eqn:H5.
      * intros [= <- _]. right. exists attempt, e0, evs0.
        split; [lia |]. split; [exact Htry |]. left.
        apply Z.leb_le in H5. split; [exact H403 |].
        split; [lia | reflexivity].
      * apply Hnext.
    + destruct (maxAttempts - 3 <=? Z.of_nat attempt) eqn:Hlast.
      * intros [= <- _]. right. exists attempt, e0, evs0.
        split; [lia |]. split; [exact Htry |]. right.
        apply Z.leb_le in Hlast. split; [exact H403 |].
        split; [exact Hlast | reflexivity].
      * apply Hnext.
Qed.

(** The loop resolves as soon as an answer is [completed] with a truthy
    result, provided the answers before it only reported a running task. *)
Lemma poll_from_resolves remaining : forall attempt n http r v,
  (n < remaining)%nat ->
  (forall k, (attempt <= k < attempt + n)%nat -> in_progress (env k) = true) ->
  env (attempt + n)%nat = Responds http (Json r) ->
  ok http = true ->
  status r = "completed"%string ->
  result r = Some v ->
  truthy v = true ->
  poll_from env maxAttempts remaining attempt
  = (Resolved v,
     flat_map (fun k => [Fetch k; Sleep 3000]) (seq attempt n)
     ++ [Fetch (attempt + n)]).
Proof.
  induction remaining as [| remaining IH];
    intros attempt n http r v Hn Hrun Henv Hok Hst Hres Hv; [lia |].
  rewrite poll_from_S. destruct n as [| n].
  - rewrite Nat.add_0_r in Henv. rewrite Henv.
    unfold iteration, try_block, getTaskStatus.
    rewrite Hok, Hst, Hres. cbn. rewrite Hv, Nat.add_0_r. reflexivity.
  - pose proof (Hrun attempt ltac:(lia)) as Hhere.
    rewrite (iteration_non_terminal _ _ _ (in_progress_non_terminal _ Hhere)).
    rewrite Hhere.
    rewrite (IH (S attempt) n http r v); try assumption; try lia.
    + cbn. replace (S (attempt + n)) with (attempt + S n)%nat by lia.
      reflexivity.
    + intros k Hk. apply Hrun. lia.
    + replace (S attempt + n)%nat with (attempt + S n)%nat by lia.
      exact Henv.
Qed.

End Bounds.

(** X2. A poll never makes more than [maxAttempts] status requests (120
    when the argument is omitted), makes them at the loop indexes 0, 1, 2,
    ... without a gap, waits at most once per request and only ever 1000
    or 3000 ms; with a budget of zero or less it makes no request at all
    and rejects with the timeout error at once. *)
Theorem poll_stays_within_its_budget
    (env : nat -> FetchOutcome) (maxAttempts : option Z) :
  let m := default 120 maxAttempts in
  let run := pollV2TaskStatus env maxAttempts in
  (exists n,
     (n <= Z.to_nat m)%nat /\
     attempts (snd run) = seq 0 n /\
     (length (sleeps (snd run)) <= n)%nat /\
     Forall (fun ms => ms = 1000 \/ ms = 3000) (sleeps (snd run))) /\
  (m <= 0 -> run = (Rejected (timeout_error m), [])).
Proof.
  cbn zeta. split.
  - apply (poll_from_bounds env (default 120 maxAttempts)
             (Z.to_nat (default 120 maxAttempts)) 0%nat).
  - intros Hm. unfold pollV2TaskStatus.
    replace (Z.to_nat (default 120 maxAttempts)) with 0%nat by lia.
    reflexivity.
Qed.

Lemma poll_stays_within_its_budget_witness :
  pollV2TaskStatus (scripted [] pending) (Some (-2))
  = (Rejected {| message := "V2任务轮询超时 (-2 次尝试)" |}, []).
Proof.
  destruct (poll_stays_within_its_budget (scripted [] pending) (Some (-2)))
    as [_ Hzero].
  apply Hzero. cbn. lia.
Defined.

(** X3. When the first [n] answers report a running task and the next one
    is [completed] with a truthy result, within the budget, the poll
    resolves with that result after [n + 1] status requests, having waited
    3000 ms after each of the first [n] and not at all after the last. *)
Theorem poll_resolves_on_first_completed
    (env : nat -> FetchOutcome) (maxAttempts : option Z)
    (n : nat) (http : Z) (r : TaskStatusResponse) (v : JsValue) :
  (n < Z.to_nat (default 120%Z maxAttempts))%nat ->
  (forall k, (k < n)%nat -> in_progress (env k) = true) ->
  env n = Responds http (Json r) ->
  ok http = true ->
  status r = "completed"%string ->
  result r = Some v ->
  truthy v = true ->
  pollV2TaskStatus env maxAttempts
  = (Resolved v,
     flat_map (fun k => [Fetch k; Sleep 3000]) (seq 0 n) ++ [Fetch n]).
Proof.
  intros Hn Hrun Henv Hok Hst Hres Hv. unfold pollV2TaskStatus.
  apply (poll_from_resolves env (default 120 maxAttempts) _ 0%nat n http r v);
    try assumption.
  intros k Hk. apply Hrun. lia.
Qed.

Lemma poll_resolves_on_first_completed_witness :
  pollV2TaskStatus
    (scripted [pending; processing] (completed (JsString "done"))) None
  = (Resolved (JsString "done"),
     [Fetch 0; Sleep 3000; Fetch 1; Sleep 3000; Fetch 2]).
Proof.
  apply (poll_resolves_on_first_completed
           (scripted [pending; processing] (completed (JsString "done")))
           None 2 200
           {| status := "completed"; result := Some (JsString "done");
              error := None |} (JsString "done")).
  - cbn. lia.
  - intros k Hk. destruct k as [| [| k]]; [reflexivity | reflexivity | lia].
  - reflexivity.
  - reflexivity.
  - reflexivity.
  - reflexivity.
  - reflexivity.
Defined.

(** X4. Whenever a poll rejects, the error is the final timeout error, or
    the auth error built from an error with "403" that was caught at a
    loop index of 5 or more, or an error without "403" that was caught at
    one of the last three loop indexes and is passed on unchanged. In
    particular no error caught before index 5 and before the last three
    indexes ever reaches the caller. *)
Theorem poll_rejections_come_late
    (env : nat -> FetchOutcome) (maxAttempts : option Z)
    (e : Error) (evs : list Event) :
  pollV2TaskStatus env maxAttempts = (Rejected e, evs) ->
  let m := default 120 maxAttempts in
  e = timeout_error m \/
  exists k e0 evs0,
    (k < Z.to_nat m)%nat /\
    try_block k (env k) = (Throw e0, evs0) /\
    (includes "403" (message e0) = true /\ (5 <= k)%nat /\
     e = auth_error e0 \/
     includes "403" (message e0) = false /\
     m - 3 <= Z.of_nat k /\ e = e0).
Proof.
  intros Hrun m. unfold pollV2TaskStatus in Hrun. fold m in Hrun.
  destruct (poll_from_rejected env m _ _ _ _ Hrun)
    as [-> | (k & e0 & evs0 & Hk & H)]; [left; reflexivity |].
  right. exists k, e0, evs0. split; [lia | exact H].
Qed.

Lemma poll_rejections_come_late_witness :
  {| message := "boom" |} = timeout_error 120 \/
  exists k e0 evs0,
    (k < 120)%nat /\
    try_block k (scripted [pending; pending] (failed "boom") k)
      = (Throw e0, evs0) /\
    (includes "403" (message e0) = true /\ (5 <= k)%nat /\
     {| message := "boom" |} = auth_error e0 \/
     includes "403" (message e0) = false /\
     120 - 3 <= Z.of_nat k /\ {| message := "boom" |} = e0).
Proof.
  apply (poll_rejections_come_late
           (scripted [pending; pending] (failed "boom")) None
           {| message := "boom" |}
           (snd (pollV2TaskStatus
                   (scripted [pending; pending] (failed "boom")) None))).
  vm_compute. reflexivity.
Defined.

End PollerExtra.

(** * Further properties of the subscription manager *)
Module ChannelsExtra.
Import Channels.

Lemma removeChannel_lookup channelName throws w n :
  activeChannels (removeChannel channelName throws w) !! n
  = if decide (channelName = n) then None else activeChannels w !! n.
Proof.
  unfold removeChannel.
  destruct (activeChannels w !! channelName) as [ch |] eqn:H.
  - destruct throws; cbn [activeChannels]; rewrite lookup_delete;
      reflexivity.
  - case_decide; [subst; exact H | reflexivity].
Qed.

Lemma removeChannel_subscriptions channelName throws w :
  subscriptions (removeChannel channelName throws w) = subscriptions w.
Proof. unfold removeChannel. repeat case_match; reflexivity. Qed.

Lemma removeChannel_unsubscribed channelName throws w ch :
  ch ∈ unsubscribed (removeChannel channelName throws w) <->
  ch ∈ unsubscribed w \/
  activeChannels w !! channelName = Some ch /\ throws = false.
Proof.
  unfold removeChannel.
  destruct (activeChannels w !! channelName) as [c |] eqn:H.
  - destruct throws; cbn [unsubscribed].
    + split; [auto | intros [? | [_ ?]]; [assumption | discriminate]].
    + rewrite elem_of_app, list_elem_of_singleton. split.
      * intros [? | ->]; auto.
      * intros [? | [[= ->] _]]; auto.
  - split; [auto | intros [? | [? _]]; [assumption | discriminate]].
Qed.

(** The loop of [cleanupAllChannels], for any list of distinct names. *)
Lemma removeEach_spec throws : forall channelNames w,
  NoDup channelNames ->
  let w' := removeEach throws channelNames w in
  (forall n, activeChannels w' !! n
             = if decide (n ∈ channelNames) then None
               else activeChannels w !! n) /\
  subscriptions w' = subscriptions w /\
  (forall ch, ch ∈ unsubscribed w' <->
              ch ∈ unsubscribed w \/
              exists n, n ∈ channelNames /\
                        activeChannels w !! n = Some ch /\ throws n = false).
Proof.
  induction channelNames as [| a l IH]; intros w Hnd; cbn zeta.
  - cbn. split; [| split].
    + intros n. case_decide as H; [inversion H | reflexivity].
    + reflexivity.
    + intros ch. split; [auto |]. intros [? | (n & H & _)]; [assumption |].
      inversion H.
  - apply NoDup_cons in Hnd as [Ha Hnd]. cbn [removeEach foldl].
    destruct (IH (removeChannel a (throws a) w) Hnd) as (Hmap & Hsub & Hun).
    fold (removeEach throws l (removeChannel a (throws a) w)).
    split; [| split].
    + intros n. rewrite Hmap, removeChannel_lookup.
      destruct (decide (n ∈ l)) as [Hin | Hnin].
      * rewrite decide_True by (right; exact Hin). reflexivity.
      * destruct (decide (a = n)) as [-> | Hne].
        -- rewrite decide_True by left. reflexivity.
        -- rewrite decide_False; [reflexivity |].
           intros H. apply elem_of_cons in H as [-> | H]; auto.
    + rewrite Hsub. apply removeChannel_subscriptions.
    + intros ch. rewrite Hun, removeChannel_unsubscribed. split.
      * intros [[H | [H Ht]] | (n & Hin & Hn & Ht)]; auto.
        -- right. exists a. split; [left | auto].
        -- right. exists n. split; [right; exact Hin |].
           rewrite removeChannel_lookup in Hn.
           case_decide; [discriminate | auto].
      * intros [H | (n & Hin & Hn & Ht)]; [auto |].
        apply elem_of_cons in Hin as [-> | Hin]; [auto |].
        right. exists n. split; [exact Hin |].
        rewrite removeChannel_lookup.
        rewrite decide_False by (intros ->; contradiction). auto.
Qed.

Lemma elem_of_getActiveChannels w n :
  n ∈ getActiveChannels w <-> is_Some (activeChannels w !! n).
Proof.
  unfold getActiveChannels. rewrite list_elem_of_fmap. split.
  - intros ([k ch] & -> & H). apply elem_of_map_to_list in H. eauto.
  - intros [ch H]. exists (n, ch). split; [reflexivity |].
    apply elem_of_map_to_list. exact H.
Qed.

(** X5. [cleanupAllChannels] leaves no channel behind, whichever
    [unsubscribe()] calls throw: the loop over the names alone already
    empties the map, before the final [clear()]. It opens no subscription,
    and the channels it unsubscribes are exactly the tracked ones whose
    [unsubscribe()] did not throw. *)
Theorem cleanupAllChannels_empties_the_map
    (throws : string -> bool) (w : World) :
  let w' := cleanupAllChannels throws w in
  activeChannels (removeEach throws (getActiveChannels w) w) = ∅ /\
  (forall n, hasChannel n w' = false) /\
  getActiveChannelCount w' = 0%nat /\
  subscriptions w' = subscriptions w /\
  (forall ch, ch ∈ unsubscribed w' <->
              ch ∈ unsubscribed w \/
              exists n, activeChannels w !! n = Some ch /\ throws n = false).
Proof.
  cbn zeta.
  destruct (removeEach_spec throws (getActiveChannels w) w
              (NoDup_fst_map_to_list _)) as (Hmap & Hsub & Hun).
  split; [| split; [| split; [| split]]].
  - apply map_eq. intros n. rewrite Hmap, lookup_empty.
    case_decide as Hin; [reflexivity |].
    rewrite elem_of_getActiveChannels in Hin.
    destruct (activeChannels w !! n) eqn:H; [| reflexivity].
    exfalso. apply Hin. eauto.
  - intros n. unfold hasChannel, cleanupAllChannels. cbn [activeChannels].
    rewrite lookup_empty. apply bool_decide_eq_false_2, is_Some_None.
  - unfold getActiveChannelCount, cleanupAllChannels. cbn [activeChannels].
    apply map_size_empty.
  - exact Hsub.
  - intros ch. unfold cleanupAllChannels. cbn [unsubscribed].
    rewrite Hun. split.
    + intros [H | (n & _ & H)]; eauto.
    + intros [H | (n & Hn & Ht)]; [auto |]. right. exists n.
      split; [apply elem_of_getActiveChannels; eauto | auto].
Qed.

Lemma create_lookup_other channelName t throws w n :
  channelName <> n ->
  activeChannels (snd (create channelName t throws w)) !! n
  = activeChannels w !! n.
Proof.
  intros Hne. unfold create.
  destruct (activeChannels w !! channelName); [reflexivity |].
  destruct throws; [reflexivity |].
  cbn [snd activeChannels]. apply lookup_insert_ne. exact Hne.
Qed.

Lemma onStatus_lookup channelName status throws w n :
  activeChannels (onStatus channelName status throws w) !! n
  = if bool_decide (status = "CHANNEL_ERROR"%string
                    \/ status = "TIMED_OUT"%string
                    \/ status = "CLOSED"%string)
       && bool_decide (channelName = n)
    then None
    else activeChannels w !! n.
Proof.
  unfold onStatus.
  destruct (String.eqb_spec status "SUBSCRIBED") as [-> | _].
  { rewrite bool_decide_eq_false_2; [reflexivity |].
    intros [H | [H | H]]; discriminate. }
  destruct (String.eqb_spec status "CHANNEL_ERROR") as [-> | H1].
  { rewrite bool_decide_eq_true_2 by auto. rewrite removeChannel_lookup.
    cbn [andb]. destruct (decide (channelName = n)) as [-> | Hne].
    - rewrite bool_decide_eq_true_2; reflexivity.
    - rewrite bool_decide_eq_false_2; auto. }
  destruct (String.eqb_spec status "TIMED_OUT") as [-> | H2].
  { rewrite bool_decide_eq_true_2 by auto. rewrite removeChannel_lookup.
    cbn [andb]. destruct (decide (channelName = n)) as [-> | Hne].
    - rewrite bool_decide_eq_true_2; reflexivity.
    - rewrite bool_decide_eq_false_2; auto. }
  destruct (String.eqb_spec status "CLOSED") as [-> | H3].
  { rewrite bool_decide_eq_true_2 by auto. cbn [andb activeChannels].
    rewrite lookup_delete. destruct (decide (channelName = n)) as [-> | Hne].
    - rewrite bool_decide_eq_true_2; reflexivity.
    - rewrite bool_decide_eq_false_2; auto. }
  rewrite bool_decide_eq_false_2; [reflexivity |]. tauto.
Qed.

(** X6. The status callback of a subscription forgets the channel name on
    [CHANNEL_ERROR], [TIMED_OUT] and [CLOSED], leaves every other name
    alone, and does nothing on [SUBSCRIBED] or on a status it does not
    know; it never opens a subscription, and on [CLOSED] it does not call
    [unsubscribe()]. Since the name is then free again, the next
    [createChannel] or [createTranscriptionChannel] for it opens a new
    transport subscription. *)
Theorem status_callback_frees_the_name
    (channelName status : string) (throws : bool) (w : World) :
  let w' := onStatus channelName status throws w in
  (status = "CHANNEL_ERROR"%string \/ status = "TIMED_OUT"%string
   \/ status = "CLOSED"%string ->
   hasChannel channelName w' = false /\
   forall t, exists channel w'',
     create channelName t false w' = (Some channel, w'') /\
     subscriptions w'' = subscriptions w ++ [channel] /\
     serial channel = length (subscriptions w)) /\
  (status <> "CHANNEL_ERROR"%string -> status <> "TIMED_OUT"%string ->
   status <> "CLOSED"%string -> w' = w) /\
  (forall n, n <> channelName ->
             activeChannels w' !! n = activeChannels w !! n) /\
  subscriptions w' = subscriptions w /\
  (status = "CLOSED"%string -> unsubscribed w' = unsubscribed w).
Proof.
  cbn zeta.
  assert (Hsub : subscriptions (onStatus channelName status throws w)
                 = subscriptions w).
  { unfold onStatus. repeat case_match; try reflexivity;
      apply removeChannel_subscriptions. }
  split; [| split; [| split; [| split]]].
  - intros Hst.
    assert (Hnone : activeChannels (onStatus channelName status throws w)
                    !! channelName = None).
    { rewrite onStatus_lookup.
      rewrite !bool_decide_eq_true_2 by auto. reflexivity. }
    split.
    + unfold hasChannel. rewrite Hnone.
      apply bool_decide_eq_false_2, is_Some_None.
    + intros t. unfold create. rewrite Hnone, Hsub.
      eexists _, _. split; [reflexivity |]. split; reflexivity.
  - intros H1 H2 H3. unfold onStatus.
    apply String.eqb_neq in H1, H2, H3. rewrite H1, H2, H3.
    destruct (String.eqb status "SUBSCRIBED"); reflexivity.
  - intros n Hne. rewrite onStatus_lookup.
    rewrite (bool_decide_eq_false_2 (channelName = n)) by auto.
    rewrite andb_false_r. reflexivity.
  - exact Hsub.
  - intros ->. reflexivity.
Qed.

Lemma status_callback_frees_the_name_witness :
  hasChannel "sessions-u1" (onStatus "sessions-u1" "TIMED_OUT" true one_channel_world)
    = false /\
  exists channel w'',
    createChannel "sessions-u1" "u1" false
      (onStatus "sessions-u1" "TIMED_OUT" true one_channel_world)
      = (Some channel, w'') /\
    subscriptions w'' = [first_channel; channel] /\ serial channel = 1%nat.
Proof.
  destruct (status_callback_frees_the_name "sessions-u1" "TIMED_OUT" true
              one_channel_world) as (Hfree & _).
  destruct (Hfree (or_intror (or_introl eq_refl))) as [Hhas Hnew].
  split; [exact Hhas |].
  destruct (Hnew sessions_topic) as (channel & w'' & Hc & Hs & Hser).
  exists channel, w''. auto.
Defined.

(** X7. The accessors of the manager agree with one another and follow
    its operations: [getActiveChannels] lists, without repetition,
    exactly the names for which [hasChannel] holds, and as many of them as
    [getActiveChannelCount] says; creating a channel adds one to the count
    exactly when the name was free and the transport did not throw, and
    removing one takes one off exactly when the name was present. *)
Theorem accessors_follow_the_operations
    (channelName : string) (t : Topic) (throws : bool) (w : World) :
  NoDup (getActiveChannels w) /\
  (forall n, n ∈ getActiveChannels w <-> hasChannel n w = true) /\
  length (getActiveChannels w) = getActiveChannelCount w /\
  getActiveChannelCount (snd (create channelName t throws w))
    = (if hasChannel channelName w || throws
       then getActiveChannelCount w
       else S (getActiveChannelCount w)) /\
  (if hasChannel channelName w
   then S (getActiveChannelCount (removeChannel channelName throws w))
   else getActiveChannelCount (removeChannel channelName throws w))
    = getActiveChannelCount w.
Proof.
  split; [apply NoDup_fst_map_to_list |].
  split; [intros n; rewrite elem_of_getActiveChannels; unfold hasChannel;
          rewrite bool_decide_eq_true; reflexivity |].
  split; [unfold getActiveChannels, getActiveChannelCount;
          rewrite length_fmap; apply length_map_to_list |].
  unfold hasChannel, getActiveChannelCount, create, removeChannel.
  destruct (activeChannels w !! channelName) as [ch |] eqn:H.
  - rewrite bool_decide_eq_true_2 by eauto. split; [reflexivity |].
    destruct throws; cbn [activeChannels];
      rewrite map_size_delete_Some by eauto;
      (assert (size (activeChannels w) <> 0%nat)
         by (intros H0; apply map_size_empty_inv in H0;
             rewrite H0, lookup_empty in H; discriminate));
      lia.
  - rewrite bool_decide_eq_false_2 by apply is_Some_None.
    split; [| reflexivity].
    destruct throws; cbn [orb snd activeChannels]; [reflexivity |].
    apply map_size_insert_None. exact H.
Qed.

(** X8. Creating or removing a channel touches no other name of the
    map. *)
Theorem operations_touch_one_name
    (channelName n : string) (t : Topic) (throws : bool) (w : World) :
  channelName <> n ->
  activeChannels (snd (create channelName t throws w)) !! n
    = activeChannels w !! n /\
  activeChannels (removeChannel channelName throws w) !! n
    = activeChannels w !! n /\
  hasChannel n (removeChannel channelName throws w) = hasChannel n w.
Proof.
  intros Hne. split; [apply create_lookup_other; exact Hne |].
  assert (H : activeChannels (removeChannel channelName throws w) !! n
              = activeChannels w !! n).
  { rewrite removeChannel_lookup. rewrite decide_False by exact Hne.
    reflexivity. }
  split; [exact H |]. unfold hasChannel. rewrite H. reflexivity.
Qed.

Lemma operations_touch_one_name_witness :
  hasChannel "sessions-u1"
    (removeChannel "transcriptions-u1" false one_channel_world) = true.
Proof.
  destruct (operations_touch_one_name "transcriptions-u1" "sessions-u1"
              sessions_topic false one_channel_world ltac:(discriminate))
    as (_ & _ & ->).
  apply bool_decide_eq_true_2. exists first_channel.
  apply lookup_singleton_eq.
Defined.

(** X9. The handler of a transcription channel passes an event on to the
    consumer only while the page is visible and only for a session it
    watches: the session id is that of the new row when the new row has a
    truthy one, and that of the old row otherwise, and it must be a
    non-empty string among the watched ids. So an update is judged by its
    new row alone, and a deletion (no session id in the new row) by its
    old row. The handler of a session channel passes on every event while
    the page is visible, and none while it is hidden. *)
Theorem events_are_filtered
    (hidden : bool) (t : Topic) (ids : list string)
    (payload : RealtimePayload) :
  (sessionIds t = None -> delivers hidden t payload = negb hidden) /\
  (sessionIds t = Some ids ->
   (delivers hidden t payload = true ->
    hidden = false /\
    exists s, s <> ""%string /\ s ∈ ids /\
              payloadSessionId payload = Some (JsString s)) /\
   (forall v, new payload ≫= js_field "session_id" = Some v ->
              truthy v = true ->
              delivers hidden t payload
              = negb hidden
                && match v with
                   | JsString s => bool_decide (s ∈ ids)
                   | _ => false
                   end) /\
   (forall s, new payload ≫= js_field "session_id" = None ->
              old payload ≫= js_field "session_id" = Some (JsString s) ->
              s <> ""%string ->
              delivers hidden t payload
              = negb hidden && bool_decide (s ∈ ids))).
Proof.
  unfold delivers. split.
  - intros ->. destruct hidden; reflexivity.
  - intros ->. split; [| split].
    + destruct hidden; [discriminate |]. intros H. split; [reflexivity |].
      unfold watches in H.
      destruct (payloadSessionId payload) as [[| | | s | |] |];
        try discriminate.
      apply andb_true_iff in H as [Hne Hin].
      apply negb_true_iff, String.eqb_neq in Hne.
      apply bool_decide_eq_true in Hin. eauto.
    + intros v Hnew Hv. destruct hidden; [reflexivity |]. cbn [negb andb].
      unfold watches, payloadSessionId. rewrite Hnew. cbn [js_or].
      rewrite Hv. destruct v as [| | | s | |]; try reflexivity.
      cbn [truthy] in Hv. rewrite Hv. reflexivity.
    + intros s Hnew Hold Hne. destruct hidden; [reflexivity |].
      cbn [negb andb]. unfold watches, payloadSessionId.
      rewrite Hnew, Hold. cbn [js_or].
      apply String.eqb_neq in Hne. rewrite Hne. reflexivity.
Qed.

Lemma events_are_filtered_witness :
  let t := {| table := "transcriptions"; filter := None;
              sessionIds := Some ["s1"%string] |} in
  delivers false t (moved "s1" "s2") = false /\
  delivers false t (moved "s2" "s1") = true /\
  delivers false t (deleted "s1") = true.
Proof.
  cbn zeta.
  pose (t := {| table := "transcriptions"; filter := None;
                sessionIds := Some ["s1"%string] |}).
  split; [| split].
  - destruct (events_are_filtered false t ["s1"%string] (moved "s1" "s2"))
      as (_ & H). destruct (H eq_refl) as (_ & Hnew & _).
    exact (Hnew (JsString "s2") eq_refl eq_refl).
  - destruct (events_are_filtered false t ["s1"%string] (moved "s2" "s1"))
      as (_ & H). destruct (H eq_refl) as (_ & Hnew & _).
    exact (Hnew (JsString "s1") eq_refl eq_refl).
  - destruct (events_are_filtered false t ["s1"%string] (deleted "s1"))
      as (_ & H). destruct (H eq_refl) as (_ & _ & Hold).
    exact (Hold "s1"%string eq_refl eq_refl ltac:(discriminate)).
Defined.

End ChannelsExtra.

(** * Further properties of the retranscription tracking *)
Module RetranscribeExtra.
Import Retranscribe RetranscribeSpec.

(** No update that the page ever queues clears the force-hide cell. *)
Lemma writes_never_unhide acts :
  writes acts ->
  Forall (fun a => a <> SetForceHideRetranscribeOverlay false) acts.
Proof.
  intros [sel sessions st | s | | sid startTs now flag sessions].
  - unfold completionEffect.
    destruct (String.eqb sel ""); [constructor |].
    destruct (findSession sel sessions) as [s |]; [| constructor].
    repeat (apply Forall_app; split); repeat case_match;
      repeat (apply Forall_cons; split; [discriminate |]);
      apply Forall_nil; exact I.
  - repeat (apply Forall_cons; split; [discriminate |]).
    apply Forall_nil; exact I.
  - repeat (apply Forall_cons; split; [discriminate |]).
    apply Forall_nil; exact I.
  - unfold fallbackCheck. repeat case_match; cbn [snd];
      repeat (apply Forall_cons; split; [discriminate |]);
      apply Forall_nil; exact I.
Qed.

Lemma writes_keep_forceHide acts a st :
  writes acts -> a ∈ acts ->
  forceHideRetranscribeOverlay st = true ->
  forceHideRetranscribeOverlay (apply_action st a) = true.
Proof.
  intros Hw Hin Hforce.
  pose proof (writes_never_unhide acts Hw) as Hall.
  rewrite Forall_forall in Hall. specialize (Hall a Hin).
  destruct a as [| | | [|] |]; cbn; try exact Hforce; try reflexivity.
  contradiction.
Qed.

(** X10. Once the fallback timer has forced the overlay away, nothing
    brings it back for a retranscription: no update that the page ever
    queues clears [forceHideRetranscribeOverlay], so in every later state
    the overlay is shown exactly when the selected session is
    [processing], however [isRetranscribing] stands. *)
Theorem forced_overlay_stays_hidden
    (st st' : TrackState) (sel : string) (sessions : list Session) :
  forceHideRetranscribeOverlay st = true ->
  rtc step st st' ->
  forceHideRetranscribeOverlay st' = true /\
  overlayVisible sel sessions st'
  = match findSession sel sessions with
    | Some s => String.eqb (status s) "processing"
    | None => false
    end.
Proof.
  intros Hforce Hsteps.
  assert (H : forceHideRetranscribeOverlay st' = true).
  { induction Hsteps as [st | st st1 st2 Hstep _ IH]; [exact Hforce |].
    apply IH. destruct Hstep as [acts a st Hw Hin].
    exact (writes_keep_forceHide acts a st Hw Hin Hforce). }
  split; [exact H |]. unfold overlayVisible. rewrite H.
  rewrite andb_false_r, orb_false_r. reflexivity.
Qed.

Lemma forced_overlay_stays_hidden_witness :
  overlayVisible "s1" [session_s1 "completed"]
    (apply_action (commit tracking_t1 closeOverlay) (SetIsRetranscribing true))
  = false.
Proof.
  destruct (forced_overlay_stays_hidden
              (commit tracking_t1 closeOverlay)
              (apply_action (commit tracking_t1 closeOverlay)
                 (SetIsRetranscribing true))
              "s1" [session_s1 "completed"] eq_refl) as [_ ->].
  - apply rtc_once.
    apply (step_update (startTracking (session_s1 "completed"))).
    + constructor.
    + unfold startTracking. set_solver.
  - reflexivity.
Defined.

(** X11. A refresh that shows the selected session [completed] with the
    signature it had at submission does not end the tracking as long as
    [processing] has not been seen: the effect queues nothing, also when no
    baseline is recorded. In particular the refresh that follows a
    submission, with the sessions as they were, leaves the job in
    flight. *)
Theorem unchanged_signature_keeps_tracking
    (sel : string) (sessions : list Session) (st : TrackState) (s : Session) :
  sel <> ""%string ->
  findSession sel sessions = Some s ->
  status s = "completed"%string ->
  (hasSeenProcessing st = false ->
   match retranscribeBaseline st with
   | Some baseline =>
       id (signatureOf s) = id baseline /\
       contentLength (signatureOf s) = contentLength baseline /\
       segmentsLength (signatureOf s) = segmentsLength baseline
   | None => True
   end ->
   completionEffect sel sessions st = [] /\ refresh sel sessions st = st) /\
  completionEffect sel sessions (commit st (startTracking s)) = [] /\
  isRetranscribing (refresh sel sessions (commit st (startTracking s))) = true.
Proof.
  intros Hsel Hfind Hst.
  assert (Hquiet : forall st0,
            hasSeenProcessing st0 = false ->
            match retranscribeBaseline st0 with
            | Some baseline =>
                id (signatureOf s) = id baseline /\
                contentLength (signatureOf s) = contentLength baseline /\
                segmentsLength (signatureOf s) = segmentsLength baseline
            | None => True
            end ->
            completionEffect sel sessions st0 = []).
  { intros st0 Hseen Hbase.
    rewrite (completionEffect_found _ _ _ _ Hsel Hfind), Hst, Hseen.
    cbn [String.eqb Ascii.eqb Bool.eqb andb negb app].
    rewrite andb_false_r. cbn [app].
    destruct (isRetranscribing st0); [| reflexivity].
    destruct (retranscribeBaseline st0) as [baseline |]; [| reflexivity].
    apply differs_false_iff in Hbase. rewrite Hbase. reflexivity. }
  split.
  - intros Hseen Hbase. pose proof (Hquiet st Hseen Hbase) as Heff.
    split; [exact Heff |]. unfold refresh. rewrite Heff. reflexivity.
  - assert (Heff : completionEffect sel sessions (commit st (startTracking s))
                   = []).
    { apply Hquiet; [reflexivity |]. cbn. auto. }
    split; [exact Heff |]. unfold refresh. rewrite Heff. reflexivity.
Qed.

Lemma unchanged_signature_keeps_tracking_witness :
  refresh "s1" [session_s1 "completed"]
    (commit idle (startTracking (session_s1 "completed")))
  = commit idle (startTracking (session_s1 "completed")).
Proof.
  destruct (unchanged_signature_keeps_tracking "s1" [session_s1 "completed"]
              idle (session_s1 "completed")
              ltac:(discriminate) eq_refl eq_refl) as (_ & Heff & _).
  unfold refresh. rewrite Heff. reflexivity.
Defined.

(** X12. The completion effect shows its success toast once for each of
    its two completion paths that fires: while a job is in flight and the
    selected session is [completed], once if [processing] had been seen
    and once more if the signature differs from the baseline, hence twice
    when both hold; it shows none in any other case. *)
Theorem success_toast_count
    (sel : string) (sessions : list Session) (st : TrackState) :
  toastCount (completionEffect sel sessions st)
  = match findSession sel sessions with
    | Some s =>
        if negb (String.eqb sel "") && isRetranscribing st
           && String.eqb (status s) "completed"
        then ((if hasSeenProcessing st then 1 else 0)
              + match retranscribeBaseline st with
                | Some baseline =>
                    if differs (signatureOf s) baseline then 1 else 0
                | None => 0
                end)%nat
        else 0%nat
    | None => 0%nat
    end.
Proof.
  unfold completionEffect.
  destruct (String.eqb sel ""); cbn [negb andb];
    [destruct (findSession sel sessions); reflexivity |].
  destruct (findSession sel sessions) as [s |]; [| reflexivity].
  destruct (isRetranscribing st), (hasSeenProcessing st),
    (String.eqb (status s) "completed") eqn:Hc,
    (String.eqb (status s) "processing") eqn:Hp;
    cbn [andb negb app];
    try (apply String.eqb_eq in Hc, Hp; congruence);
    try destruct (retranscribeBaseline st) as [baseline |];
    try destruct (differs (signatureOf s) baseline);
    reflexivity.
Qed.

(** X13. The completion effect can end a tracking but never starts one:
    while no job is in flight a refresh leaves the in-flight flag [false],
    does not set the intermediate-state flag, and shows no toast. *)
Theorem effect_never_starts_tracking
    (sel : string) (sessions : list Session) (st : TrackState) :
  isRetranscribing st = false ->
  isRetranscribing (refresh sel sessions st) = false /\
  (hasSeenProcessing (refresh sel sessions st) = true ->
   hasSeenProcessing st = true) /\
  toastCount (completionEffect sel sessions st) = 0%nat.
Proof.
  intros Hoff. unfold refresh, completionEffect. rewrite Hoff.
  destruct (String.eqb sel ""); [cbn; auto |].
  destruct (findSession sel sessions) as [s |]; [| cbn; auto].
  cbn [andb]. rewrite andb_false_r. cbn [app].
  destruct (negb (String.eqb (status s) "completed")
            && negb (String.eqb (status s) "processing"));
    cbn; rewrite ?Hoff; auto. repeat split. discriminate.
Qed.

Lemma effect_never_starts_tracking_witness :
  isRetranscribing (refresh "s1" [session_s1 "processing"] idle) = false.
Proof.
  exact (proj1 (effect_never_starts_tracking "s1"
                  [session_s1 "processing"] idle eq_refl)).
Defined.




End RetranscribeExtra.

(** * Properties of the API client *)
Module ApiSpec.
Import Poller Api.

Lemma strip_prefix_app (pat rest : string) :
  strip_prefix pat (pat +:+ rest) = Some rest.
Proof.
  induction pat as [| a pat IH]; [reflexivity |].
  change (String a pat +:+ rest) with (String a (pat +:+ rest)).
  cbn [strip_prefix]. rewrite Ascii.eqb_refl. exact IH.
Qed.

Lemma strip_prefix_Some (pat : string) : forall s rest,
  strip_prefix pat s = Some rest -> s = pat +:+ rest.
Proof.
  induction pat as [| a pat IH]; intros s rest; cbn [strip_prefix].
  - intros [= ->]. reflexivity.
  - destruct s as [| b s]; [discriminate |].
    destruct (Ascii.eqb_spec a b) as [-> | _]; [| discriminate].
    intros H. rewrite (IH _ _ H). reflexivity.
Qed.

Lemma startsWith_spec (pat s : string) :
  startsWith pat s = true <-> exists rest, s = pat +:+ rest.
Proof.
  unfold startsWith. rewrite bool_decide_eq_true. split.
  - intros [rest H]. exists rest. apply strip_prefix_Some. exact H.
  - intros [rest ->]. rewrite strip_prefix_app. eauto.
Qed.

(** The first occurrence of a pattern that the string starts with is the
    one at its head. *)
Lemma replace_first_prefix (pat rep rest : string) :
  replace_first pat rep (pat +:+ rest) = rep +:+ rest.
Proof.
  pose proof (strip_prefix_app pat rest) as H.
  destruct (pat +:+ rest) as [| c s]; cbn [replace_first]; rewrite H;
    reflexivity.
Qed.

(** X15. Every URL that [request] fetches starts with a slash: the
    concatenation of the base URL and the endpoint is used as it is when
    it starts with one and gets one prepended otherwise. Among the
    headers sent, those of the caller win over the defaults; without them
    [Content-Type] is [application/json], and [Authorization] carries the
    bearer token exactly when the token getter returns a non-empty
    string. *)
Theorem request_url_and_headers
    (c : APIClient) (endpoint : string) (headers : gmap string string) :
  startsWith "/" (finalUrl c endpoint) = true /\
  (startsWith "/" (baseURL c +:+ endpoint) = true ->
   finalUrl c endpoint = baseURL c +:+ endpoint) /\
  (startsWith "/" (baseURL c +:+ endpoint) = false ->
   finalUrl c endpoint = "/" +:+ baseURL c +:+ endpoint) /\
  (forall k v, headers !! k = Some v ->
               requestHeaders c headers !! k = Some v) /\
  (headers !! "Content-Type"%string = None ->
   requestHeaders c headers !! "Content-Type"%string
   = Some "application/json"%string) /\
  (headers !! "Authorization"%string = None ->
   requestHeaders c headers !! "Authorization"%string
   = match getAuthToken c with
     | Some token =>
         if String.eqb token "" then None
         else Some ("Bearer " +:+ token)%string
     | None => None
     end).
Proof.
  split; [| split; [| split; [| split; [| split]]]].
  - unfold finalUrl.
    destruct (startsWith "/" (baseURL c +:+ endpoint)) eqn:H; [exact H |].
    apply startsWith_spec. eauto.
  - intros H. unfold finalUrl. rewrite H. reflexivity.
  - intros H. unfold finalUrl. rewrite H. reflexivity.
  - intros k v H. unfold requestHeaders.
    apply lookup_union_Some_l, lookup_union_Some_l. exact H.
  - intros H. unfold requestHeaders.
    rewrite lookup_union_r.
    + apply lookup_singleton_eq.
    + apply lookup_union_None. split; [exact H |].
      repeat case_match; try apply lookup_empty.
      apply lookup_singleton_ne. discriminate.
  - intros H. unfold requestHeaders.
    rewrite lookup_union_l by (apply lookup_singleton_ne; discriminate).
    rewrite lookup_union_r by exact H.
    repeat case_match; try apply lookup_empty; try discriminate.
    simplify_eq. apply lookup_singleton_eq.
Qed.

Lemma request_url_and_headers_witness :
  finalUrl {| baseURL := "api/v1"; getAuthToken := Some "tok"%string |}
    "/templates/" = "/api/v1/templates/"%string /\
  requestHeaders {| baseURL := "api/v1"; getAuthToken := Some "tok"%string |}
    ∅ !! "Authorization"%string = Some "Bearer tok"%string.
Proof.
  destruct (request_url_and_headers
              {| baseURL := "api/v1"; getAuthToken := Some "tok"%string |}
              "/templates/" ∅) as (_ & _ & Hurl & _ & _ & Hauth).
  split.
  - apply Hurl. reflexivity.
  - apply Hauth. apply lookup_empty.
Defined.

(** X16. [request] resolves only with the parsed body of a 2xx answer.
    On any other status it throws: the message is the backend's
    [error.message] when the body is an object that carries a truthy one,
    and "HTTP <status>" otherwise, also when the body does not parse; the
    one exception is a body that is JSON [null], for which the property
    read itself throws. *)
Theorem request_outcome
    (ToString : JsValue -> string) (c : APIClient) (endpoint : string)
    (f : Fetched) :
  (forall v, request ToString c endpoint f = Done v <->
             exists http statusText,
               f = Answer http statusText (Parsed v) /\ ok http = true) /\
  (forall http statusText body,
     f = Answer http statusText body -> ok http = false ->
     match body with
     | Parsed JsNull =>
         request ToString c endpoint f = Raise ThrownTypeError
     | Parsed (JsObject fields) =>
         match js_opt_prop "message" (js_field "error" fields) with
         | Some (JsString m) =>
             request ToString c endpoint f
             = Raise (ThrownError
                        {| message := if String.eqb m "" then
                                        ("HTTP " +:+ show_int http)%string
                                      else m |})
         | Some v =>
             request ToString c endpoint f
             = Raise (ThrownError
                        {| message := if truthy v then ToString v
                                      else ("HTTP " +:+ show_int http)%string |})
         | None =>
             request ToString c endpoint f
             = Raise (ThrownError
                        {| message := ("HTTP " +:+ show_int http)%string |})
         end
     | _ =>
         request ToString c endpoint f
         = Raise (ThrownError
                    {| message := ("HTTP " +:+ show_int http)%string |})
     end).
Proof.
  split.
  - intros v. unfold request. split.
    + destruct f as [e | http statusText body]; [discriminate |].
      destruct (ok http) eqn:Hok; cbn [negb].
      * destruct body as [e | w]; [discriminate |].
        intros [= ->]. eauto.
      * destruct (js_prop "error" (json_or_empty body)); discriminate.
    + intros (http & statusText & -> & Hok). rewrite Hok. reflexivity.
  - intros http statusText body -> Hok. unfold request. rewrite Hok.
    cbn [negb]. destruct body as [e | [| b | n | str | items | fields]];
      try reflexivity.
    cbn [json_or_empty js_prop mbind Try_bind].
    destruct (js_opt_prop "message" (js_field "error" fields))
      as [[| b | n | m | items | fs] |]; cbn [js_or_default truthy to_text];
      try reflexivity.
    + destruct b; reflexivity.
    + destruct (n =? 0); reflexivity.
    + destruct (String.eqb m ""); reflexivity.
Qed.

Lemma request_outcome_witness :
  request (fun _ => ""%string)
    {| baseURL := "/api/v1"; getAuthToken := None |} "/sessions/s1"
    (Answer 404 "Not Found"
       (Parsed (JsObject [("error"%string,
                           JsObject [("message"%string,
                                      JsString "no such session")])])))
  = Raise (ThrownError {| message := "no such session" |}).
Proof.
  destruct (request_outcome (fun _ => ""%string)
              {| baseURL := "/api/v1"; getAuthToken := None |} "/sessions/s1"
              (Answer 404 "Not Found"
                 (Parsed (JsObject [("error"%string,
                                     JsObject [("message"%string,
                                                JsString "no such session")])]))))
    as [_ H].
  exact (H 404 "Not Found"%string _ eq_refl eq_refl).
Defined.

(** The result of a poll is truthy, so reading its properties never
    throws. *)
Lemma poll_done pollEnv v calls :
  poll pollEnv = (Done v, calls) ->
  truthy v = true /\
  exists k http r,
    pollEnv k = Responds http (Json r) /\ ok http = true /\
    status r = "completed"%string /\ result r = Some v.
Proof.
  unfold poll, pollV2TaskStatus.
  destruct (poll_from pollEnv (default 120 None) (Z.to_nat (default 120 None))
              0) as [[w | e] evs] eqn:Hrun; [| discriminate].
  intros [= -> _].
  destruct (PollerSpec.poll_from_resolved _ _ _ _ _ _ Hrun)
    as (k & http & r & _ & Henv & Hok & Hst & Hres & Hv).
  split; [exact Hv |]. exists k, http, r. auto.
Qed.

Lemma poll_calls pollEnv :
  exists evs, snd (poll pollEnv) = [Polls evs].
Proof.
  unfold poll. destruct (pollV2TaskStatus pollEnv None) as [[v | e] evs];
    eauto.
Qed.

Lemma summaryOf_not_null v :
  v <> JsNull -> exists r, summaryOf v = Done r.
Proof.
  intros Hv. unfold summaryOf.
  destruct v; try contradiction; cbn; eauto.
Qed.

Lemma truthy_not_null v : truthy v = true -> v <> JsNull.
Proof. intros H ->. discriminate. Qed.

(** X17. [generateSummary] polls exactly when the 2xx answer is an object
    carrying both [task_id] and [poll_url]. It then resolves or rejects as
    the poll does: with the [summary], [key_points] (default [[]]) and
    [metadata] (default [{}]) of the truthy result of a [completed] status
    answer, or with the very error of the poll. Any other 2xx answer is
    used as the summary itself, without any status request. A fetch that
    rejects is passed on with its own error, and an answer that is not 2xx
    is reported by its status code; neither is followed by a status
    request. *)
Theorem generateSummary_follows_the_poll
    (c : APIClient) (sessionId : string) (f : Fetched)
    (pollEnv : nat -> FetchOutcome) :
  let run := generateSummary c sessionId f pollEnv in
  ((exists evs, Polls evs ∈ snd run) <->
   exists http statusText data,
     f = Answer http statusText (Parsed data) /\ ok http = true /\
     isAsyncResponse data = true) /\
  (forall http statusText data,
     f = Answer http statusText (Parsed data) -> ok http = true ->
     isAsyncResponse data = true ->
     match fst (poll pollEnv) with
     | Done v =>
         exists r k http' resp,
           fst run = Done r /\ summaryOf v = Done r /\
           pollEnv k = Responds http' (Json resp) /\
           status resp = "completed"%string /\ result resp = Some v
     | Raise t => fst run = Raise t
     end) /\
  (forall http statusText data,
     f = Answer http statusText (Parsed data) -> ok http = true ->
     isAsyncResponse data = false ->
     run = (summaryOf data, snd run) /\ length (snd run) = 1%nat) /\
  (forall e, f = FetchFails e -> fst run = Raise (ThrownError e)) /\
  (forall http statusText body,
     f = Answer http statusText body -> ok http = false ->
     fst run = Raise (ThrownError
                        {| message := "Summary generation failed: "
                                      +:+ show_int http |})).
Proof.
  cbn zeta. unfold generateSummary.
  destruct f as [e | http statusText body].
  { split; [| split; [| split; [| split]]]; try discriminate.
    - split; [| intros (? & ? & ? & [=] & _)].
      intros [evs H]. apply list_elem_of_singleton in H. discriminate.
    - intros ? [= ->]. reflexivity. }
  destruct (ok http) eqn:Hok; cbn [negb].
  2: { split; [| split; [| split; [| split]]]; try discriminate.
       - split; [| intros (? & ? & ? & [= -> _ _] & ? & _); congruence].
         intros [evs H]. apply list_elem_of_singleton in H. discriminate.
       - intros ? ? ? [= -> _ _]. congruence.
       - intros ? ? ? [= -> _ _]. congruence.
       - intros ? ? ? [= -> _ _] _. reflexivity. }
  destruct body as [e | data]; cbn [json].
  { split; [| split; [| split; [| split]]]; try discriminate.
    - split; [| intros (? & ? & ? & [=] & _)].
      intros [evs H]. apply list_elem_of_singleton in H. discriminate.
    - intros ? ? ? [= -> _ _]. congruence. }
  destruct (isAsyncResponse data) eqn:Hasync.
  - destruct (poll_calls pollEnv) as [evs0 Hcalls].
    destruct (poll pollEnv) as [result calls] eqn:Hpoll.
    cbn [snd] in Hcalls. subst calls. cbn [fst snd].
    split; [| split; [| split; [| split]]].
    + split; [eauto 10 |]. intros _. exists evs0. set_solver.
    + intros ? ? ? [= <- _ <-] _ _.
      destruct result as [v | t]; [| reflexivity].
      destruct (poll_done _ _ _ Hpoll) as (Hv & k & http' & resp & He & _ & Hs & Hr).
      destruct (summaryOf_not_null v (truthy_not_null v Hv)) as [r Hr'].
      exists r, k, http', resp. cbn. rewrite Hr'. auto.
    + intros ? ? ? [= _ _ <-] _ H. congruence.
    + discriminate.
    + intros ? ? ? [= -> _ _]. congruence.
  - cbn [fst snd]. split; [| split; [| split; [| split]]].
    + split.
      * intros [evs H]. apply list_elem_of_singleton in H. discriminate.
      * intros (? & ? & ? & [= _ _ <-] & _ & H). congruence.
    + intros ? ? ? [= _ _ <-] _ H. congruence.
    + intros ? ? ? [= _ _ <-] _ _. split; reflexivity.
    + discriminate.
    + intros ? ? ? [= -> _ _]. congruence.
Qed.

Lemma generateSummary_follows_the_poll_witness :
  fst (generateSummary {| baseURL := "/api/v1"; getAuthToken := None |} "s1"
         (Answer 200 "OK"
            (Parsed (JsObject [("task_id"%string, JsString "t9");
                               ("poll_url"%string, JsString "/v2/tasks/t9")])))
         (scripted [pending] (failed "model unavailable")))
  = Raise (ThrownError {| message := "model unavailable" |}).
Proof.
  destruct (generateSummary_follows_the_poll
              {| baseURL := "/api/v1"; getAuthToken := None |} "s1"
              (Answer 200 "OK"
                 (Parsed (JsObject [("task_id"%string, JsString "t9");
                                    ("poll_url"%string,
                                     JsString "/v2/tasks/t9")])))
              (scripted [pending] (failed "model unavailable")))
    as (_ & Hasync & _ & _ & _).
  specialize (Hasync 200 "OK"%string _ eq_refl eq_refl eq_refl).
  assert (Hpoll : fst (poll (scripted [pending] (failed "model unavailable")))
                  = Raise (ThrownError {| message := "model unavailable" |}))
    by (vm_compute; reflexivity).
  rewrite Hpoll in Hasync. exact Hasync.
Defined.

(** X18. [retranscribeSession] never rejects. It reports the task as
    submitted exactly when the V2 endpoint answers 2xx with a body that
    parses and is not [null]; its only fetch is then the V2 one, followed
    by the poll with the default budget, and nothing the poll does changes
    what the caller gets. When
    V2 fails in any way the V1 endpoint is tried, its answer is returned
    as it is, and only when that request fails too does the method return
    its own "unavailable" object. *)
Theorem retranscribeSession_never_rejects
    (ToString : JsValue -> string) (c : APIClient) (sessionId : string)
    (v2 : Fetched) (pollEnv : nat -> FetchOutcome) (v1 : Fetched) :
  let run := retranscribeSession ToString c sessionId v2 pollEnv v1 in
  let endpoint1 := ("/sessions/" +:+ sessionId +:+ "/retranscribe")%string in
  (exists r, fst run = Done r) /\
  (forall task_id,
     fst run = Done (Submitted task_id) <->
     exists http statusText data,
       v2 = Answer http statusText (Parsed data) /\ ok http = true /\
       js_prop "task_id" data = Done task_id) /\
  (forall task_id,
     fst run = Done (Submitted task_id) ->
     exists evs,
       snd run
       = [Fetches (v2BaseURL c +:+ "/v2/sessions/" +:+ sessionId
                   +:+ "/retranscribe");
          Polls evs] /\
       evs = snd (pollV2TaskStatus pollEnv None)) /\
  (forall v,
     fst run = Done (V1Answer v) ->
     request ToString c endpoint1 v1 = Done v) /\
  (fst run = Done Unavailable ->
   forall v, request ToString c endpoint1 v1 <> Done v) /\
  (forall pollEnv',
     fst (retranscribeSession ToString c sessionId v2 pollEnv' v1) = fst run).
Proof.
  cbn zeta. unfold retranscribeSession.
  set (submit := match v2 with
                 | FetchFails e => Raise (ThrownError e)
                 | Answer http _ body =>
                     if negb (ok http) then
                       Raise (ThrownError
                                {| message := "重新转录失败: " +:+ show_int http |})
                     else taskData ← json body; js_prop "task_id" taskData
                 end).
  assert (Hsubmit : forall task_id,
            submit = Done task_id <->
            exists http statusText data,
              v2 = Answer http statusText (Parsed data) /\ ok http = true /\
              js_prop "task_id" data = Done task_id).
  { intros task_id. subst submit. split.
    - destruct v2 as [e | http statusText body]; [discriminate |].
      destruct (ok http) eqn:Hok; cbn [negb]; [| discriminate].
      destruct body as [e | data]; [discriminate |].
      cbn [json mbind Try_bind]. eauto 10.
    - intros (http & statusText & data & -> & Hok & Hid).
      rewrite Hok. exact Hid. }
  destruct submit as [task_id | t] eqn:Hs.
  - cbn [fst snd]. destruct (poll_calls pollEnv) as [evs Hcalls].
    rewrite Hcalls.
    split; [eauto |]. split; [| split; [| split; [| split]]];
      try discriminate; try reflexivity.
    + intros tid. rewrite <- Hsubmit. split; congruence.
    + intros tid _. exists evs. split; [reflexivity |].
      revert Hcalls. unfold poll.
      destruct (pollV2TaskStatus pollEnv None) as [[w | e] evs'];
        intros [= ->]; reflexivity.
  - cbn [fst snd].
    destruct (request ToString c ("/sessions/" +:+ sessionId +:+ "/retranscribe")
                v1) as [v | t'] eqn:Hreq; cbn [mbind Try_bind catch].
    + split; [eauto |]. split; [| split; [| split; [| split]]];
        try discriminate; try reflexivity.
      * intros tid. rewrite <- Hsubmit. split; discriminate.
      * intros w [= ->]. reflexivity.
    + split; [eauto |]. split; [| split; [| split; [| split]]];
        try discriminate; try reflexivity.
      intros tid. rewrite <- Hsubmit. split; discriminate.
Qed.

(** The two ways [retranscribeSession] can go, by what the endpoints
    do. *)
Lemma retranscribeSession_submitted ToString c sessionId pollEnv v1
    http statusText data :
  ok http = true -> data <> JsNull ->
  exists task_id,
    fst (retranscribeSession ToString c sessionId
           (Answer http statusText (Parsed data)) pollEnv v1)
    = Done (Submitted task_id).
Proof.
  intros Hok Hdata. unfold retranscribeSession. rewrite Hok.
  cbn [negb json mbind Try_bind].
  destruct data; try contradiction; cbn; eauto.
Qed.

Lemma retranscribeSession_unavailable ToString c sessionId v2 pollEnv v1 :
  match v2 with
  | Answer http _ (Parsed data) => ok http = false \/ data = JsNull
  | _ => True
  end ->
  (forall v, request ToString c ("/sessions/" +:+ sessionId +:+ "/retranscribe")
               v1 <> Done v) ->
  fst (retranscribeSession ToString c sessionId v2 pollEnv v1)
  = Done Unavailable.
Proof.
  intros H2 H1. unfold retranscribeSession.
  assert (Hsubmit : exists t,
            match v2 with
            | FetchFails e => Raise (ThrownError e)
            | Answer http _ body =>
                if negb (ok http) then
                  Raise (ThrownError
                           {| message := "重新转录失败: " +:+ show_int http |})
                else taskData ← json body; js_prop "task_id" taskData
            end = Raise t).
  { destruct v2 as [e | http statusText [e | data]]; eauto.
    - destruct (ok http); cbn; eauto.
    - destruct H2 as [-> | ->]; [cbn; eauto |].
      destruct (ok http); cbn; eauto. }
  destruct Hsubmit as [t ->]. cbn [fst].
  destruct (request ToString c ("/sessions/" +:+ sessionId +:+ "/retranscribe")
              v1) as [v | t'] eqn:Hreq; [| reflexivity].
  exfalso. exact (H1 v eq_refl).
Qed.

Lemma js_or_default_truthy a d :
  truthy d = true -> truthy (js_or_default a d) = true.
Proof.
  intros Hd. unfold js_or_default. destruct a as [v |]; [| exact Hd].
  destruct (truthy v) eqn:Hv; [exact Hv | exact Hd].
Qed.

(** X23. Whenever [finalizeSession] resolves, it reports the status
    [completed] for the session id it was given, and its [final_data] is
    never missing or falsy: it is the truthy result of a [completed]
    status answer when the finalize endpoint announced a started task (a
    truthy [task_id] with status "started"), and the [result] of the
    answer, or the default record when that is falsy, otherwise. It polls
    only in the first case, and then rejects with the very error of the
    poll. *)
Theorem finalizeSession_outcome
    (c : APIClient) (sessionId : string) (f : Fetched)
    (pollEnv : nat -> FetchOutcome) :
  let run := finalizeSession c sessionId f pollEnv in
  (forall r, fst run = Done r ->
             finalize_status r = "completed"%string /\
             finalize_session_id r = sessionId /\
             truthy (final_data r) = true) /\
  (forall http statusText data task_id,
     f = Answer http statusText (Parsed data) -> ok http = true ->
     js_prop "task_id" data = Done task_id ->
     if startedTask task_id data then
       (exists evs, snd run = [Fetches (v2BaseURL c +:+ "/v2/sessions/"
                                        +:+ sessionId +:+ "/finalize");
                               Polls evs]) /\
       match fst (poll pollEnv) with
       | Done v =>
           exists r k http' resp,
             fst run = Done r /\ final_data r = v /\
             pollEnv k = Responds http' (Json resp) /\
             status resp = "completed"%string /\ result resp = Some v
       | Raise t => fst run = Raise t
       end
     else
       length (snd run) = 1%nat /\
       exists r,
         fst run = Done r /\
         final_data r
         = js_or_default (js_opt_prop "result" (Some data)) defaultFinalData).
Proof.
  cbn zeta. unfold finalizeSession. split.
  - intros r. destruct f as [e | http statusText body]; [discriminate |].
    destruct (ok http); cbn [negb]; [| discriminate].
    destruct (json body) as [data |]; [| discriminate].
    destruct (js_prop "task_id" data) as [task_id |]; [| discriminate].
    destruct (startedTask task_id data).
    + destruct (poll pollEnv) as [[v | t] calls] eqn:Hpoll; [| discriminate].
      cbn [fst mbind Try_bind]. intros [= <-]. cbn.
      destruct (poll_done _ _ _ Hpoll) as [Hv _]. auto.
    + cbn [fst]. intros [= <-]. cbn [finalize_status finalize_session_id
        final_data]. repeat split. apply js_or_default_truthy. reflexivity.
  - intros http statusText data task_id -> Hok Hid. rewrite Hok.
    cbn [negb json]. rewrite Hid.
    destruct (startedTask task_id data).
    + destruct (poll_calls pollEnv) as [evs Hcalls].
      destruct (poll pollEnv) as [result calls] eqn:Hpoll.
      cbn [snd] in Hcalls. subst calls. cbn [fst snd].
      split; [eauto |]. destruct result as [v | t]; [| reflexivity].
      destruct (poll_done _ _ _ Hpoll)
        as (_ & k & http' & resp & He & _ & Hs & Hr).
      eexists _, k, http', resp. cbn. repeat split; eauto.
    + cbn [fst snd]. split; [reflexivity |]. eexists. split; reflexivity.
Qed.

Lemma finalizeSession_outcome_witness :
  exists r,
    fst (finalizeSession {| baseURL := "/api/v1"; getAuthToken := None |}
           "s1"
           (Answer 200 "OK" (Parsed (JsObject [("result"%string, JsNull)])))
           (scripted [] pending)) = Done r /\
    final_data r = defaultFinalData.
Proof.
  destruct (finalizeSession_outcome
              {| baseURL := "/api/v1"; getAuthToken := None |} "s1"
              (Answer 200 "OK" (Parsed (JsObject [("result"%string, JsNull)])))
              (scripted [] pending)) as [_ H].
  specialize (H 200 "OK"%string _ None eq_refl eq_refl eq_refl).
  cbn [startedTask] in H. destruct H as (_ & r & Hr & Hdata).
  exists r. split; [exact Hr | exact Hdata].
Defined.

Lemma retranscribeSession_never_rejects_witness :
  fst (retranscribeSession (fun _ => ""%string)
         {| baseURL := "/api/v1"; getAuthToken := Some "tok"%string |} "s1"
         (Answer 200 "OK"
            (Parsed (JsObject [("task_id"%string, JsString "t7")])))
         (scripted [] (failed "boom"))
         (FetchFails {| message := "offline" |}))
  = Done (Submitted (Some (JsString "t7"))).
Proof.
  destruct (retranscribeSession_never_rejects (fun _ => ""%string)
              {| baseURL := "/api/v1"; getAuthToken := Some "tok"%string |}
              "s1"
              (Answer 200 "OK"
                 (Parsed (JsObject [("task_id"%string, JsString "t7")])))
              (scripted [] (failed "boom"))
              (FetchFails {| message := "offline" |}))
    as (_ & Hsub & _).
  apply Hsub. eexists 200, "OK"%string, _. repeat split.
Defined.

(** X19. Without a token (the getter returns [null] or the empty string)
    [generateSessionSummary] and [getTemplates] reject with their
    "not authenticated" errors before any request is made. With a token,
    a summary that [generateSessionSummary] resolves with is the [summary]
    property of the truthy result of a [completed] status answer, tagged
    as generated by the V2 task. *)
Theorem no_token_no_request
    (ToString : JsValue -> string) (c : APIClient) (sessionId : string)
    (f : Fetched) (pollEnv : nat -> FetchOutcome) :
  (getAuthToken c = None \/ getAuthToken c = Some ""%string ->
   generateSessionSummary ToString c sessionId f pollEnv
   = (Raise (ThrownError {| message := "用户未认证，无法生成AI总结" |}), []) /\
   getTemplates ToString c f
   = (Raise (ThrownError {| message := "用户未认证，无法加载模板" |}), [])) /\
  (forall r,
     fst (generateSessionSummary ToString c sessionId f pollEnv) = Done r ->
     session_metadata r
     = JsObject [("generated_by"%string, JsString "v2_async_task")] /\
     exists k http resp v,
       pollEnv k = Responds http (Json resp) /\
       status resp = "completed"%string /\ result resp = Some v /\
       truthy v = true /\ js_prop "summary" v = Done (session_summary r)).
Proof.
  split.
  - intros [H | H]; unfold generateSessionSummary, getTemplates; rewrite H;
      split; reflexivity.
  - intros r. unfold generateSessionSummary.
    destruct (getAuthToken c) as [token |]; [| discriminate].
    destruct (String.eqb token ""); [discriminate |].
    destruct f as [e | http statusText body]; [discriminate |].
    destruct (ok http); cbn [negb].
    2: { cbn [fst]. destruct (js_prop "detail" (json_or_empty body));
           discriminate. }
    destruct (taskData ← json body; js_prop "task_id" taskData);
      [| discriminate].
    destruct (poll pollEnv) as [[v | t] calls] eqn:Hpoll; [| discriminate].
    cbn [fst mbind Try_bind].
    destruct (poll_done _ _ _ Hpoll) as (Hv & k & http' & resp & He & _ & Hs & Hr).
    destruct (js_prop "summary" v) as [s |] eqn:Hsum; [| discriminate].
    intros [= <-]. split; [reflexivity |].
    exists k, http', resp, v. cbn. auto.
Qed.

Lemma no_token_no_request_witness :
  snd (generateSessionSummary (fun _ => ""%string)
         {| baseURL := "/api/v1"; getAuthToken := Some ""%string |} "s1"
         (Answer 200 "OK" (Parsed (JsObject []))) (scripted [] pending))
  = [].
Proof.
  destruct (no_token_no_request (fun _ => ""%string)
              {| baseURL := "/api/v1"; getAuthToken := Some ""%string |} "s1"
              (Answer 200 "OK" (Parsed (JsObject []))) (scripted [] pending))
    as [H _].
  destruct (H (or_intror eq_refl)) as [-> _]. reflexivity.
Defined.

End ApiSpec.

(** * Properties of the page handlers and of the client singleton *)
Module PageSpec.
Import Poller Api Retranscribe Page.

(** X20. [handleSessionCreated] undoes the room naming: for a room named
    [intrascribe_room_] followed by a session id it selects that session
    id (only the leading prefix is removed, also when the id contains the
    prefix again), and a room name without the prefix is taken as the
    session id as it is. In both cases the recording session and the
    selected session are set to the same id. *)
Theorem handleSessionCreated_strips_the_prefix (roomName sessionId : string) :
  handleSessionCreated ("intrascribe_room_" +:+ sessionId)
  = {| currentRecordingSessionId := sessionId;
       selectedSessionId := sessionId |} /\
  (startsWith "intrascribe_room_" roomName = false ->
   handleSessionCreated roomName
   = {| currentRecordingSessionId := roomName;
        selectedSessionId := roomName |}) /\
  currentRecordingSessionId (handleSessionCreated roomName)
  = selectedSessionId (handleSessionCreated roomName).
Proof.
  split; [| split].
  - unfold handleSessionCreated.
    rewrite (proj2 (ApiSpec.startsWith_spec _ _)) by eauto.
    rewrite ApiSpec.replace_first_prefix. reflexivity.
  - intros H. unfold handleSessionCreated. rewrite H. reflexivity.
  - reflexivity.
Qed.

Lemma handleSessionCreated_strips_the_prefix_witness :
  handleSessionCreated "7f3a-22"
  = {| currentRecordingSessionId := "7f3a-22";
       selectedSessionId := "7f3a-22" |}.
Proof.
  destruct (handleSessionCreated_strips_the_prefix "7f3a-22" "")
    as (_ & H & _).
  apply H. reflexivity.
Defined.

(** X21. When a completed session is selected and both retranscription
    endpoints fail (V2 does not answer 2xx with a usable body, and the V1
    request does not resolve), [handleRetranscribe] gives up at once: the
    tracking it had started is reset by its [catch] block, whatever has
    become of the cells during the awaits, and no fallback timer is armed.
    When instead the V2 endpoint accepts the task and the session refresh
    succeeds, the handler arms the fallback timer on the cells as the
    awaits have left them and ends as that chain does: within 14 runs,
    with the in-flight flag [false], as success, as timeout, or with
    nothing left to do when the job has been ended meanwhile. *)
Theorem handleRetranscribe_with_the_client
    (ToString : JsValue -> string) (typeErrorMessage : string)
    (c : APIClient) (sel : string) (sessions : list Session) (s : Session)
    (v2 : Fetched) (pollEnv : nat -> FetchOutcome) (v1 : Fetched)
    (refreshError : option Error) (startTs : Z)
    (meanwhile : TrackState -> TrackState)
    (others : nat -> TrackState -> TrackState) (ticks : nat -> Tick)
    (fuel : nat) (st : TrackState) :
  sel <> ""%string ->
  findSession sel sessions = Some s ->
  status s = "completed"%string ->
  let run := handleRetranscribeVia ToString typeErrorMessage (Some c) sel
               sessions v2 pollEnv v1 refreshError startTs meanwhile others
               ticks fuel st in
  let armed := meanwhile (commit st (startTracking s)) in
  (match v2 with
   | Answer http _ (Parsed data) => ok http = false \/ data = JsNull
   | _ => True
   end ->
   (forall v, request ToString c ("/sessions/" +:+ sel +:+ "/retranscribe") v1
              <> Done v) ->
   run = Some (SubmissionFailed, commit armed resetTracking) /\
   isRetranscribing (commit armed resetTracking) = false) /\
  (forall http statusText data,
     v2 = Answer http statusText (Parsed data) ->
     ok http = true -> data <> JsNull ->
     refreshError = None -> (14 <= fuel)%nat ->
     exists k v st',
       armFallbackChain sel startTs ticks others fuel armed
       = Some (k, v, st') /\
       run = Some (Ended v, st') /\
       (k <= 13)%nat /\
       (v = NotTracking \/ v = Success \/ v = Timeout) /\
       isRetranscribing st' = false).
Proof.
  intros Hsel Hfind Hst. cbn zeta.
  unfold handleRetranscribeVia, handleRetranscribe.
  rewrite (RetranscribeSpec.eqb_empty_false _ Hsel), Hfind, Hst.
  cbn [String.eqb Ascii.eqb Bool.eqb negb mbind option_bind].
  split.
  - intros H2 H1.
    rewrite (ApiSpec.retranscribeSession_unavailable _ _ _ _ _ _ H2 H1).
    split; reflexivity.
  - intros http statusText data -> Hok Hdata -> Hfuel.
    destruct (ApiSpec.retranscribeSession_submitted ToString c sel pollEnv v1
                http statusText data Hok Hdata) as [task_id ->].
    cbn [submissionOf refused].
    destruct (RetranscribeSpec.fallbackChain_ends sel startTs ticks others
                (meanwhile (commit st (startTracking s))) fuel 0%nat
                (startTs + 400) (meanwhile (commit st (startTracking s))))
      as (k & v & st' & Hrun & Hk & Hoff & _ & Hlast);
      [lia | lia | reflexivity | reflexivity |].
    unfold armFallbackChain. rewrite Hrun. exists k, v, st'.
    split; [reflexivity |]. split; [reflexivity |]. split; [lia |].
    split; [| exact Hoff].
    destruct Hlast as [(-> & _) | [(-> & _) | (-> & _)]]; auto.
Qed.

Lemma handleRetranscribe_with_the_client_witness :
  handleRetranscribeVia (fun _ => ""%string) ""
    (Some {| baseURL := "/api/v1"; getAuthToken := Some "tok"%string |})
    "s1" [session_s1 "completed"]
    (Answer 503 "Service Unavailable" (NoJson {| message := "" |}))
    (scripted [] pending)
    (FetchFails {| message := "offline" |})
    None 0 (fun st => st) nobody punctual_ticks 0 idle
  = Some (SubmissionFailed, idle) /\
  exists st',
    handleRetranscribeVia (fun _ => ""%string) ""
      (Some {| baseURL := "/api/v1"; getAuthToken := Some "tok"%string |})
      "s1" [session_s1 "completed"]
      (Answer 202 "Accepted"
         (Parsed (JsObject [("task_id"%string, JsString "t9")])))
      (scripted [] pending)
      (FetchFails {| message := "offline" |})
      None 0 (refresh "s1" [session_s1 "processing"])
      (effect_first "s1" completing_ticks) completing_ticks 14 idle
    = Some (Ended NotTracking, st') /\
    isRetranscribing st' = false /\
    forceHideRetranscribeOverlay st' = false.
Proof.
  split.
  - destruct (handleRetranscribe_with_the_client (fun _ => ""%string) ""
                {| baseURL := "/api/v1"; getAuthToken := Some "tok"%string |}
                "s1" [session_s1 "completed"] (session_s1 "completed")
                (Answer 503 "Service Unavailable" (NoJson {| message := "" |}))
                (scripted [] pending)
                (FetchFails {| message := "offline" |})
                None 0 (fun st => st) nobody punctual_ticks 0 idle
                ltac:(discriminate) eq_refl eq_refl) as [H _].
    destruct (H I ltac:(discriminate)) as [-> _]. reflexivity.
  - destruct (handleRetranscribe_with_the_client (fun _ => ""%string) ""
                {| baseURL := "/api/v1"; getAuthToken := Some "tok"%string |}
                "s1" [session_s1 "completed"] (session_s1 "completed")
                (Answer 202 "Accepted"
                   (Parsed (JsObject [("task_id"%string, JsString "t9")])))
                (scripted [] pending)
                (FetchFails {| message := "offline" |})
                None 0 (refresh "s1" [session_s1 "processing"])
                (effect_first "s1" completing_ticks) completing_ticks 14 idle
                ltac:(discriminate) eq_refl eq_refl) as [_ H].
    destruct (H 202 "Accepted"%string _ eq_refl eq_refl ltac:(discriminate)
                eq_refl ltac:(lia))
      as (k & v & st' & Harm & Hrun & _ & _ & Hoff).
    assert (Hsame : exists st'',
               armFallbackChain "s1" 0 completing_ticks
                 (effect_first "s1" completing_ticks) 14
                 (refresh "s1" [session_s1 "processing"]
                    (commit idle (startTracking (session_s1 "completed"))))
               = Some (2%nat, NotTracking, st'') /\
               forceHideRetranscribeOverlay st'' = false)
      by (eexists; split; reflexivity).
    destruct Hsame as (st'' & Harm' & Hhide).
    rewrite Harm in Harm'. injection Harm' as -> -> ->.
    exists st''. split; [exact Hrun |]. split; [exact Hoff | exact Hhide].
Defined.

End PageSpec.

Module SingletonSpec.
Import Singleton.

Lemma createSupabaseClient_settled throws m :
  settled m ->
  settled (snd (createSupabaseClient throws m)) /\
  match fst (createSupabaseClient throws m) with
  | Some client =>
      supabaseInstance (snd (createSupabaseClient throws m)) = Some client
  | None => throws = true /\ supabaseInstance m = None
  end /\
  (forall client, supabaseInstance m = Some client ->
                  createSupabaseClient throws m = (Some client, m)).
Proof.
  intros [Hflag Hinst]. unfold createSupabaseClient, settled.
  destruct (supabaseInstance m) as [client |] eqn:Hi.
  - cbn [fst snd]. rewrite Hi, Hflag. repeat split; try tauto.
    intros ? [= ->]. reflexivity.
  - rewrite Hflag. destruct throws; cbn [fst snd supabaseInstance isCreating
      constructed configured]; rewrite ?Hinst; repeat split; discriminate.
Qed.

(** X22. [createSupabaseClient] keeps a single client: from the initial
    module state, whatever calls are made and whichever constructions
    throw, at most one client is ever constructed, every call that
    returns gives that same, fully configured client, [isCreating] is
    [false] again after each call, and once a call has returned no later
    call constructs anything or throws. *)
Theorem createSupabaseClient_is_a_singleton (throws : list bool) :
  let results := fst (calls throws initial) in
  let m := snd (calls throws initial) in
  isCreating m = false /\
  (length (constructed m) <= 1)%nat /\
  (forall client, Some client ∈ results ->
                  constructed m = [client] /\ configured client = true /\
                  supabaseInstance m = Some client) /\
  (forall i j client, results !! i = Some (Some client) -> (i <= j)%nat ->
                      (j < length results)%nat ->
                      results !! j = Some (Some client)).
Proof.
  assert (Hgen : forall throws m,
            settled m ->
            let '(results, m') := calls throws m in
            settled m' /\
            (forall client, supabaseInstance m = Some client ->
                            supabaseInstance m' = Some client /\
                            Forall (fun r => r = Some client) results) /\
            (forall client, Some client ∈ results ->
                            supabaseInstance m' = Some client) /\
            (forall i j client,
               results !! i = Some (Some client) -> (i <= j)%nat ->
               (j < length results)%nat ->
               results !! j = Some (Some client))).
  { clear throws. induction throws as [| t rest IH]; intros m Hm.
    - cbn. split; [exact Hm |]. split; [| split].
      + intros client H. split; [exact H | constructor].
      + intros client H. inversion H.
      + intros i j client H. rewrite lookup_nil in H. discriminate.
    - cbn [calls].
      destruct (createSupabaseClient_settled t m Hm) as (Hm1 & Hres & Hkeep).
      destruct (createSupabaseClient t m) as [r m1]. cbn [fst snd] in *.
      specialize (IH m1 Hm1). destruct (calls rest m1) as [rs m2].
      destruct IH as (Hm2 & Hstay & Hsome & Hmono).
      split; [exact Hm2 |]. split; [| split].
      + intros client Hc. pose proof (Hkeep client Hc) as [= -> ->].
        destruct (Hstay client Hc) as [H1 H2].
        split; [exact H1 | constructor; [reflexivity | exact H2]].
      + intros client Hin. apply elem_of_cons in Hin as [<- | Hin].
        * exact (proj1 (Hstay client Hres)).
        * exact (Hsome client Hin).
      + intros i j client Hi Hij Hj. destruct i as [| i].
        * injection Hi as ->.
          destruct (Hstay client Hres) as [_ Hall].
          destruct j as [| j]; [reflexivity |].
          change (rs !! j = Some (Some client)).
          change (S j < S (length rs))%nat in Hj.
          rewrite Forall_lookup in Hall.
          destruct (lookup_lt_is_Some_2 rs j ltac:(lia)) as [x Hx].
          rewrite Hx. f_equal. exact (Hall j x Hx).
        * destruct j as [| j]; [lia |].
          change (rs !! i = Some (Some client)) in Hi.
          change (S j < S (length rs))%nat in Hj.
          change (rs !! j = Some (Some client)).
          apply (Hmono i j client Hi); lia. }
  specialize (Hgen throws initial ltac:(split; reflexivity)). cbn zeta.
  destruct (calls throws initial) as [results m]. cbn [fst snd].
  destruct Hgen as ([Hflag Hinst] & _ & Hsome & Hmono).
  split; [exact Hflag |]. split; [| split; [| exact Hmono]].
  - destruct (supabaseInstance m); [destruct Hinst as [-> _] | rewrite Hinst];
      cbn; lia.
  - intros client Hin. pose proof (Hsome client Hin) as Hc.
    rewrite Hc in Hinst. destruct Hinst. auto.
Qed.

Lemma createSupabaseClient_is_a_singleton_witness :
  constructed (snd (calls [true; false; true; false] initial))
  = [{| serial := 0; configured := true |}].
Proof.
  destruct (createSupabaseClient_is_a_singleton [true; false; true; false])
    as (_ & _ & Hsame & _).
  apply (Hsame {| serial := 0; configured := true |}).
  vm_compute. apply list_elem_of_In. right. left. reflexivity.
Defined.

End SingletonSpec.
